(** * OnSchedService: token lifecycle and paginated fetch

    A shallow embedding of [python/onsched_service.py].  The client is a
    Python class whose methods mutate the object ([self.session],
    [self.admin_session]) and talk to two outside parties: the OAuth2 token
    endpoint and the resource API.  Methods are embedded as computations in a
    state-and-exception monad over the object and a scripted outside world;
    Python values are embedded as a small dynamic value type. *)

From Stdlib Require Import ZArith List String Ascii Bool Lia DecimalString.
Import ListNotations.

Local Open Scope Z_scope.
Local Open Scope list_scope.
Set Warnings "-register-all".

(** ** Python values *)

(** [datetime.date]: the only non-JSON value the modelled methods inspect. *)
Record date := mkDate { year : Z; month : Z; day : Z }.

(** The values that flow through the client: what [json.loads] produces
    ([None], [bool], [int], [str], [list], [dict] with string keys) and the
    arguments callers pass.  A [dict] keeps insertion order, as in Python, so
    it is an association list; JSON numbers are integers here (floating
    point numbers are left out of the model). *)
Inductive pyval : Type :=
| PNone
| PBool (b : bool)
| PInt (n : Z)
| PStr (s : string)
| PList (l : list pyval)
| PDict (d : list (string * pyval))
| PDate (d : date).

Definition dict := list (string * pyval).

(** ** Exceptions and outcomes *)

Inductive exn : Type :=
| HTTPError (status : Z)          (* requests.HTTPError, from raise_for_status *)
| RequestException                (* no response at all: ConnectionError, Timeout, ... *)
| JSONDecodeError                 (* json.loads on a body that is not JSON *)
| KeyError (key : string)
| TypeError
| AttributeError (attr : string)
| OAuth2Error.                    (* the token request failed *)

(** What running a method can do: return, raise, or still be inside the
    [while] loop when the fuel of the model runs out. *)
Inductive outcome (A : Type) : Type :=
| Return (a : A)
| Raise (e : exn)
| OutOfFuel.
Arguments Return {A} a.
Arguments Raise {A} e.
Arguments OutOfFuel {A}.

Module Py.

(** [str(n)] for an [int]. *)
Definition str_int (n : Z) : string := NilZero.string_of_int (Z.to_int n).

(** ** Dictionaries *)

Fixpoint lookup (k : string) (d : dict) : option pyval :=
  match d with
  | [] => None
  | (k', v) :: d' => if String.eqb k k' then Some v else lookup k d'
  end.

Definition mem (k : string) (d : dict) : bool :=
  match lookup k d with Some _ => true | None => false end.

(** [d[k] = v]: an existing key keeps its place, a new key goes last. *)
Fixpoint set (k : string) (v : pyval) (d : dict) : dict :=
  match d with
  | [] => [(k, v)]
  | (k', v') :: d' =>
      if String.eqb k k' then (k, v) :: d' else (k', v') :: set k v d'
  end.

Definition keys (d : dict) : list string := map fst d.

(** ** Truth value testing ([if x:], [while x:], [x or y]) *)
Definition truthy (v : pyval) : bool :=
  match v with
  | PNone => false
  | PBool b => b
  | PInt n => negb (n =? 0)
  | PStr s => negb (String.eqb s "")
  | PList l => match l with [] => false | _ => true end
  | PDict d => match d with [] => false | _ => true end
  | PDate _ => true
  end.

Definition is_str (k : string) (v : pyval) : bool :=
  match v with PStr s => String.eqb s k | _ => false end.

(** [k in v] for a string [k]: key membership in a dict, element
    membership in a list, substring test in a string; the other types are
    not containers. *)
Definition contains (k : string) (v : pyval) : exn + bool :=
  match v with
  | PDict d => inr (mem k d)
  | PList l => inr (existsb (is_str k) l)
  | PStr s => inr (match String.index 0 k s with Some _ => true | None => false end)
  | PNone | PBool _ | PInt _ | PDate _ => inl TypeError
  end.

(** [v[k]] for a string [k]: only a dict can be subscripted by a string. *)
Definition getitem (v : pyval) (k : string) : exn + pyval :=
  match v with
  | PDict d => match lookup k d with Some x => inr x | None => inl (KeyError k) end
  | _ => inl TypeError
  end.

(** [v[k] = x] for a string [k]. *)
Definition setitem (v : pyval) (k : string) (x : pyval) : exn + pyval :=
  match v with
  | PDict d => inr (PDict (set k x d))
  | _ => inl TypeError
  end.

Definition chars (s : string) : list pyval :=
  map (fun c => PStr (String c EmptyString)) (list_ascii_of_string s).

Definition int_of (v : pyval) : option Z :=
  match v with
  | PInt n => Some n
  | PBool b => Some (if b then 1 else 0)
  | _ => None
  end.

(** [a += b].  A list is extended by any iterable (list, string, dict
    keys); strings concatenate; [int] and [bool] add; everything else is a
    [TypeError], in particular [None += ...]. *)
Definition iadd (a b : pyval) : exn + pyval :=
  match a with
  | PList l =>
      match b with
      | PList l' => inr (PList (l ++ l'))
      | PStr s => inr (PList (l ++ chars s))
      | PDict d => inr (PList (l ++ map PStr (keys d)))
      | _ => inl TypeError
      end
  | PStr s =>
      match b with
      | PStr s' => inr (PStr (s ++ s')%string)
      | _ => inl TypeError
      end
  | PInt _ | PBool _ =>
      match int_of a, int_of b with
      | Some x, Some y => inr (PInt (x + y))
      | _, _ => inl TypeError
      end
  | PNone | PDict _ | PDate _ => inl TypeError
  end.

(** [v == 'literal']: only a string equals a string. *)
Definition eq_str (v : pyval) (k : string) : bool := is_str k v.

(** [v == True]: [True] equals itself and the integer [1]. *)
Definition eq_true (v : pyval) : bool :=
  match int_of v with Some n => n =? 1 | None => false end.

End Py.

(** ** The object and the outside world *)

(** An OAuth2 token as the session keeps it: the bearer string and the
    absolute expiry.  Timestamps are compared and never computed with, so
    they are integers (ticks of the clock). *)
Record Token := mkToken { access_token : string; expires_at : Z }.

(** [BackendApplicationClient(client_id=..., scope=...)]. *)
Record BackendApplicationClient :=
  mkClient { bac_client_id : string; bac_scope : string }.

(** [OAuth2Session(client=...)].  [sid] is the identity of the Python
    object; [token] is [None] for the empty token dict of a fresh session,
    which tests false in [self.session.token]. *)
Record OAuth2Session :=
  mkSession { sid : nat; client : BackendApplicationClient; token : option Token }.

Record OnSchedService := mkService {
  client_id : string;
  client_secret : string;
  scope : string;
  token_url : string;
  consumer_api : string;
  setup_api : string;
  session : option OAuth2Session;
  admin_session : option OAuth2Session
}.

(** A decoded HTTP response: the status line and what [json.loads] makes of
    the body ([None] when the body is not JSON). *)
Record Response := mkResponse { status_code : Z; decoded : option pyval }.

(** Every network call the client makes is recorded. *)
Inductive Request : Type :=
| ReqToken (url cid secret scp : string)          (* POST to the token endpoint *)
| ReqGet (bearer : option string) (url : string)
| ReqPost (bearer : option string) (url : string) (payload : pyval).

(** The outside world is scripted: the clock reading, what the token
    endpoint will answer to successive token requests ([None]: the request
    fails), what the resource API will answer to successive requests
    ([None]: no response arrives), the calls made so far, and the next free
    object identity. *)
Record World := mkWorld {
  now : Z;
  token_endpoint : list (option Token);
  http_server : list (option Response);
  trace : list Request;
  next_id : nat
}.

Record State := mkState { self : OnSchedService; world : World }.

(** ** The monad of methods *)

Definition M (A : Type) : Type := State -> outcome A * State.

Definition ret {A} (a : A) : M A := fun st => (Return a, st).

Definition bind {A B} (m : M A) (k : A -> M B) : M B :=
  fun st =>
    match m st with
    | (Return a, st') => k a st'
    | (Raise e, st') => (Raise e, st')
    | (OutOfFuel, st') => (OutOfFuel, st')
    end.

Definition raise {A} (e : exn) : M A := fun st => (Raise e, st).

Definition out_of_fuel {A} : M A := fun st => (OutOfFuel, st).

(** A pure operation that may raise. *)
Definition lift {A} (r : exn + A) : M A :=
  match r with inl e => raise e | inr a => ret a end.

Declare Scope py_scope.
Delimit Scope py_scope with py.
Notation "x <- c ;; k" := (bind c (fun x => k))
  (at level 61, c at next level, right associativity) : py_scope.
Notation "c ;;; k" := (bind c (fun _ => k))
  (at level 61, right associativity) : py_scope.
Local Open Scope py_scope.

(** ** State updates *)

Definition set_session (s : option OAuth2Session) (o : OnSchedService) : OnSchedService :=
  mkService (client_id o) (client_secret o) (scope o) (token_url o)
            (consumer_api o) (setup_api o) s (admin_session o).

Definition set_admin_session (s : option OAuth2Session) (o : OnSchedService) : OnSchedService :=
  mkService (client_id o) (client_secret o) (scope o) (token_url o)
            (consumer_api o) (setup_api o) (session o) s.

Definition set_token (t : option Token) (s : OAuth2Session) : OAuth2Session :=
  mkSession (sid s) (client s) t.

Definition log (r : Request) (w : World) : World :=
  mkWorld (now w) (token_endpoint w) (http_server w) (trace w ++ [r]) (next_id w).

Definition set_token_endpoint (l : list (option Token)) (w : World) : World :=
  mkWorld (now w) l (http_server w) (trace w) (next_id w).

Definition set_http_server (l : list (option Response)) (w : World) : World :=
  mkWorld (now w) (token_endpoint w) l (trace w) (next_id w).

Definition bump_id (w : World) : World :=
  mkWorld (now w) (token_endpoint w) (http_server w) (trace w) (S (next_id w)).

Definition set_now (t : Z) (w : World) : World :=
  mkWorld t (token_endpoint w) (http_server w) (trace w) (next_id w).

Definition on_self (f : OnSchedService -> OnSchedService) (st : State) : State :=
  mkState (f (self st)) (world st).

Definition on_world (f : World -> World) (st : State) : State :=
  mkState (self st) (f (world st)).

(** ** The collaborators

    The HTTP transport ([requests]) and the OAuth2 machinery
    ([requests_oauthlib], [oauthlib]) are libraries, not code of the
    repository: they are modelled by what the client relies on. *)

(** [OAuth2Session(client=client)]: a new object, with no token yet. *)
Definition new_OAuth2Session (c : BackendApplicationClient) : M OAuth2Session :=
  fun st =>
    (Return (mkSession (next_id (world st)) c None), on_world bump_id st).

(** Modelled from the spec: [OAuth2Session.fetch_token] is the OAuth2 token
    endpoint collaborator.  One POST goes to the token URL with the client
    id, the client secret and the scope; a granted token is installed in the
    session object the method is called on, and an unreachable endpoint, a
    non-2xx answer or a malformed body raise without touching the token.
    The call is made on [self.session]. *)
Definition session_fetch_token (url cid secret : string) : M unit :=
  fun st =>
    match session (self st) with
    | None => (Raise (AttributeError "fetch_token"), st)
    | Some s =>
        let w := log (ReqToken url cid secret (bac_scope (client s))) (world st) in
        match token_endpoint w with
        | Some t :: rest =>
            (Return tt,
             mkState (set_session (Some (set_token (Some t) s)) (self st))
                     (set_token_endpoint rest w))
        | None :: rest =>
            (Raise OAuth2Error, mkState (self st) (set_token_endpoint rest w))
        | [] => (Raise OAuth2Error, mkState (self st) w)
        end
    end.

(** The same call made on [self.admin_session]. *)
Definition admin_session_fetch_token (url cid secret : string) : M unit :=
  fun st =>
    match admin_session (self st) with
    | None => (Raise (AttributeError "fetch_token"), st)
    | Some s =>
        let w := log (ReqToken url cid secret (bac_scope (client s))) (world st) in
        match token_endpoint w with
        | Some t :: rest =>
            (Return tt,
             mkState (set_admin_session (Some (set_token (Some t) s)) (self st))
                     (set_token_endpoint rest w))
        | None :: rest =>
            (Raise OAuth2Error, mkState (self st) (set_token_endpoint rest w))
        | [] => (Raise OAuth2Error, mkState (self st) w)
        end
    end.

Definition bearer_of (s : OAuth2Session) : option string :=
  option_map access_token (token s).

(** One exchange with the resource API: the request is recorded and the next
    scripted answer is consumed. *)
Definition exchange (r : Request) : M Response :=
  fun st =>
    let w := log r (world st) in
    match http_server w with
    | Some resp :: rest => (Return resp, mkState (self st) (set_http_server rest w))
    | None :: rest => (Raise RequestException, mkState (self st) (set_http_server rest w))
    | [] => (Raise RequestException, mkState (self st) w)
    end.

(** [self.session.get(url)]: one GET carrying the session's bearer token. *)
Definition session_get (url : string) : M Response :=
  fun st =>
    match session (self st) with
    | None => (Raise (AttributeError "get"), st)
    | Some s => exchange (ReqGet (bearer_of s) url) st
    end.

(** [self.session.post(url, json=data)]. *)
Definition session_post (url : string) (data : pyval) : M Response :=
  fun st =>
    match session (self st) with
    | None => (Raise (AttributeError "post"), st)
    | Some s => exchange (ReqPost (bearer_of s) url data) st
    end.

(** Modelled from the spec: [Response.raise_for_status] is the HTTP
    transport collaborator, which raises an error carrying the status code
    when the response status is not success (2xx). *)
Definition is_success (status : Z) : bool := (200 <=? status) && (status <? 300).

Definition raise_for_status (r : Response) : M unit :=
  if is_success (status_code r)
  then ret tt
  else raise (HTTPError (status_code r)).

(** [json.loads(response.text)]. *)
Definition json_loads (r : Response) : M pyval :=
  match decoded r with
  | Some v => ret v
  | None => raise JSONDecodeError
  end.

(** [datetime.now(timezone.utc).timestamp()]. *)
Definition unix_timestamp_now : M Z := fun st => (Return (now (world st)), st).

(** [self.session = s] and [self.admin_session = s]. *)
Definition assign_session (s : OAuth2Session) : M unit :=
  fun st => (Return tt, on_self (set_session (Some s)) st).

Definition assign_admin_session (s : OAuth2Session) : M unit :=
  fun st => (Return tt, on_self (set_admin_session (Some s)) st).

Definition get_self : M OnSchedService := fun st => (Return (self st), st).

(** ** Methods of [OnSchedService] *)

(** The test of [_set_session]:
    [self.session and self.session.token and
     self.session.token['expires_at'] > unix_timestamp]. *)
Definition token_valid (s : option OAuth2Session) (unix_timestamp : Z) : bool :=
  match s with
  | None => false
  | Some s =>
      match token s with
      | None => false
      | Some t => expires_at t >? unix_timestamp
      end
  end.

Definition _set_session : M unit :=
  unix_timestamp <- unix_timestamp_now ;;
  o <- get_self ;;
  if token_valid (session o) unix_timestamp then ret tt
  else
    let client := mkClient (client_id o) (scope o) in
    s <- new_OAuth2Session client ;;
    assign_session s ;;;
    session_fetch_token (token_url o) (client_id o) (client_secret o).

Definition _set_setup_session : M unit :=
  unix_timestamp <- unix_timestamp_now ;;
  o <- get_self ;;
  if token_valid (admin_session o) unix_timestamp then ret tt
  else
    let client := mkClient (client_id o) (scope o) in
    s <- new_OAuth2Session client ;;
    assign_admin_session s ;;;
    admin_session_fetch_token (token_url o) (client_id o) (client_secret o).

(** The page URL: [url + f'&limit=100&offset={offset}']. *)
Definition page_url (url : string) (offset : Z) : string :=
  (url ++ "&limit=100&offset=" ++ Py.str_int offset)%string.

(** The [while has_more:] loop of [_fetch_data].  The loop variables are
    [offset], [has_more], [data] and [formatted_response]; one unit of fuel
    pays for one iteration. *)
Fixpoint fetch_loop (fuel : nat) (url : string) (offset : Z)
    (has_more data formatted_response : pyval) : M (pyval * pyval) :=
  if Py.truthy has_more then
    match fuel with
    | O => out_of_fuel
    | S fuel' =>
        let offset := offset + 100 in
        response <- session_get (page_url url offset) ;;
        raise_for_status response ;;;
        formatted_response <- json_loads response ;;
        page_data <- lift (Py.getitem formatted_response "data") ;;
        data <- lift (Py.iadd data page_data) ;;
        has_more <- lift (Py.getitem formatted_response "hasMore") ;;
        fetch_loop fuel' url offset has_more data formatted_response
    end
  else ret (data, formatted_response).

(** The end of [_fetch_data]: the last page, with [count] and [data]
    overwritten when [data] tests true. *)
Definition finish (data formatted_response : pyval) : M pyval :=
  let result := formatted_response in
  if Py.truthy data then
    total <- lift (Py.getitem result "total") ;;
    result <- lift (Py.setitem result "count" total) ;;
    result <- lift (Py.setitem result "data" data) ;;
    ret result
  else ret result.

Definition _fetch_data (fuel : nat) (url : string) : M pyval :=
  _set_session ;;;
  let offset := 0 in
  let has_more := PBool false in
  let data := PNone in
  response <- session_get (page_url url offset) ;;
  raise_for_status response ;;;
  formatted_response <- json_loads response ;;
  has_key <- lift (Py.contains "hasMore" formatted_response) ;;
  has_more <- (if has_key : bool then lift (Py.getitem formatted_response "hasMore")
               else ret has_more) ;;
  has_key <- lift (Py.contains "data" formatted_response) ;;
  data <- (if has_key : bool then lift (Py.getitem formatted_response "data")
           else ret data) ;;
  r <- fetch_loop fuel url offset has_more data formatted_response ;;
  finish (fst r) (snd r).

Definition _post_data (url : string) (data : pyval) : M pyval :=
  _set_session ;;;
  response <- session_post url data ;;
  raise_for_status response ;;;
  json_loads response.

(** *** The constructor *)

Definition SANDBOX_TOKEN_URL : string := "https://sandbox-identity.onsched.com/connect/token".
Definition SANDBOX_API_URL_BASE : string := "https://sandbox-api.onsched.com".
Definition PROD_TOKEN_URL : string := "https://identity.onsched.com/connect/token".
Definition PROD_API_URL_BASE : string := "https://api.onsched.com".

(** The attribute assignments of [__init__], up to [self.admin_session =
    None]: the sandbox URLs first, overwritten when [environment == 'live']. *)
Definition init_attributes (client_id client_secret scope : string)
    (environment : pyval) : OnSchedService :=
  let token_url := SANDBOX_TOKEN_URL in
  let consumer_api := (SANDBOX_API_URL_BASE ++ "/consumer/v1")%string in
  let setup_api := (SANDBOX_API_URL_BASE ++ "/setup/v1")%string in
  if Py.eq_str environment "live" then
    let token_url := PROD_TOKEN_URL in
    let consumer_api := (PROD_API_URL_BASE ++ "/consumer/v1")%string in
    let setup_api := (PROD_API_URL_BASE ++ "/setup/v1")%string in
    mkService client_id client_secret scope token_url consumer_api setup_api None None
  else
    mkService client_id client_secret scope token_url consumer_api setup_api None None.

(** [OnSchedService(client_id, client_secret, scope, environment)] run in a
    world [w]: the attributes are set, then both sessions are set up.  The
    defaults of the source are [scope='OnSchedAPI'] and
    [environment='sandbox']. *)
Definition __init__ (client_id client_secret scope : string)
    (environment : pyval) (w : World) : outcome unit * State :=
  (_set_session ;;; _set_setup_session)
    (mkState (init_attributes client_id client_secret scope environment) w).

(** *** [availability] *)

Fixpoint zeros (n : nat) : string :=
  match n with
  | O => EmptyString
  | S n' => String "0" (zeros n')
  end.

(** ['%0<width>d' % n] for a non-negative [n]. *)
Definition zfill (width : nat) (n : Z) : string :=
  let s := Py.str_int n in
  (zeros (width - String.length s) ++ s)%string.

(** [date.isoformat()]: ['%04d-%02d-%02d' % (year, month, day)]. *)
Definition isoformat (d : date) : string :=
  (zfill 4 (year d) ++ "-" ++ zfill 2 (month d) ++ "-" ++ zfill 2 (day d))%string.

(** The date arguments: a [date] is formatted, a [str] is taken as it is,
    anything else is a [TypeError]. *)
Definition date_argument (v : pyval) : M string :=
  match v with
  | PDate d => ret (isoformat d)
  | PStr s => ret s
  | _ => raise TypeError
  end.

(** [v.join(',')]: only [str] has the method; on a string [s] it joins the
    characters of [','] with [s], which is [',']. *)
Definition join_comma (v : pyval) : M pyval :=
  match v with
  | PStr _ => ret (PStr ",")
  | _ => raise (AttributeError "join")
  end.

(** [if v: params_map[key] = v]. *)
Definition set_if (v : pyval) (key : string) (d : dict) : dict :=
  if Py.truthy v then Py.set key v d else d.

Section Availability.

(** [urllib.parse.urlencode], a library function the method hands its
    parameter map to. *)
Variable urlencode : dict -> string.

Definition availability (fuel : nat) (service_id : string)
    (start_date end_date start_time end_time location_id resource_id
     resource_group_id resource_ids duration tz_offset day_availability
     first_day_available : pyval) : M pyval :=
  startDate <- date_argument start_date ;;
  endDate <- date_argument end_date ;;
  o <- get_self ;;
  let availability_url :=
    (consumer_api o ++ "/availability/" ++ service_id ++ "/" ++ startDate
       ++ "/" ++ endDate ++ "?")%string in
  let params_map : dict := [] in
  let params_map := set_if start_time "startTime" params_map in
  let params_map := set_if end_time "endTime" params_map in
  let params_map := set_if location_id "locationId" params_map in
  let params_map := set_if resource_id "resourceId" params_map in
  let params_map := set_if resource_group_id "resourceGroupId" params_map in
  params_map <- (if Py.truthy resource_ids then
                   joined <- join_comma resource_ids ;;
                   ret (Py.set "resourceIds" joined params_map)
                 else ret params_map) ;;
  let params_map := set_if duration "duration" params_map in
  let params_map := set_if tz_offset "tzOffset" params_map in
  let params_map := set_if day_availability "dayAvailability" params_map in
  let params_map :=
    if Py.eq_true first_day_available
    then Py.set "first_day_available" (PStr "true") params_map
    else params_map in
  let params := urlencode params_map in
  let availability_url := (availability_url ++ params)%string in
  _fetch_data fuel availability_url.

End Availability.

(** *** [create_service] *)

(** ['true' if v else 'false']. *)
Definition true_false (v : pyval) : pyval :=
  if Py.truthy v then PStr "true" else PStr "false".

(** [a or b or ...] used as a condition. *)
Definition any_truthy (l : list pyval) : bool := existsb Py.truthy l.

Definition create_service (name description duration location_id
    service_group_id public default_service duration_select duration_interval
    duration_min duration_max padding consumer_padding fee_amount fee_taxable
    cancellation_fee_amount cancellation_fee_taxable nonrefundable : pyval)
    : M pyval :=
  o <- get_self ;;
  let service_url := (setup_api o ++ "/services")%string in
  let options : dict := [] in
  let options :=
    if any_truthy [default_service; duration_select; duration_interval;
                   duration_min; duration_max; padding; consumer_padding]
    then
      let options := Py.set "durationInterval" duration_interval options in
      let options := Py.set "durationMin" duration_min options in
      let options := Py.set "durationMax" duration_max options in
      let options := Py.set "padding" padding options in
      let options := Py.set "durationSelect" (true_false duration_select) options in
      let options := Py.set "durationService" (true_false default_service) options in
      Py.set "consumerPadding" (true_false consumer_padding) options
    else options in
  let fee : dict := [] in
  let fee :=
    if any_truthy [fee_amount; fee_taxable; cancellation_fee_amount;
                   cancellation_fee_taxable; nonrefundable]
    then
      let fee := Py.set "feeAmount" fee_amount fee in
      let fee := Py.set "cancellationFeeAmount" cancellation_fee_amount fee in
      let fee := Py.set "feeTaxable" (true_false fee_taxable) fee in
      let fee := Py.set "cancellationFeeTaxable" (true_false cancellation_fee_taxable) fee in
      Py.set "nonRefundable" (true_false nonrefundable) fee
    else fee in
  let payload : dict := [("name", name); ("description", description)]%string in
  let payload := set_if location_id "locationId" payload in
  let payload := set_if duration "duration" payload in
  let payload := set_if service_group_id "serviceGroupId" payload in
  let payload :=
    if Py.truthy public then Py.set "public" (PStr "true") payload else payload in
  let payload :=
    if Py.truthy (PDict options) then Py.set "options" (PDict options) payload
    else payload in
  (if Py.truthy (PDict fee)
   then _ <- lift (Py.getitem (PDict payload) "fee") ;; ret tt
   else ret tt) ;;;
  _post_data service_url (PDict payload).

(** ** The setup API

    The methods of the setup API are copies of the consumer ones that use
    [self.admin_session] where those use [self.session]. *)

(** [self.admin_session.get(url)]. *)
Definition admin_session_get (url : string) : M Response :=
  fun st =>
    match admin_session (self st) with
    | None => (Raise (AttributeError "get"), st)
    | Some s => exchange (ReqGet (bearer_of s) url) st
    end.

(** [self.admin_session.post(url, json=data)]. *)
Definition admin_session_post (url : string) (data : pyval) : M Response :=
  fun st =>
    match admin_session (self st) with
    | None => (Raise (AttributeError "post"), st)
    | Some s => exchange (ReqPost (bearer_of s) url data) st
    end.

(** The [while has_more:] loop of [_fetch_setup_data]. *)
Fixpoint fetch_setup_loop (fuel : nat) (url : string) (offset : Z)
    (has_more data formatted_response : pyval) : M (pyval * pyval) :=
  if Py.truthy has_more then
    match fuel with
    | O => out_of_fuel
    | S fuel' =>
        let offset := offset + 100 in
        response <- admin_session_get (page_url url offset) ;;
        raise_for_status response ;;;
        formatted_response <- json_loads response ;;
        page_data <- lift (Py.getitem formatted_response "data") ;;
        data <- lift (Py.iadd data page_data) ;;
        has_more <- lift (Py.getitem formatted_response "hasMore") ;;
        fetch_setup_loop fuel' url offset has_more data formatted_response
    end
  else ret (data, formatted_response).

Definition _fetch_setup_data (fuel : nat) (url : string) : M pyval :=
  _set_setup_session ;;;
  let offset := 0 in
  let has_more := PBool false in
  let data := PNone in
  response <- admin_session_get (page_url url offset) ;;
  raise_for_status response ;;;
  formatted_response <- json_loads response ;;
  has_key <- lift (Py.contains "hasMore" formatted_response) ;;
  has_more <- (if has_key : bool then lift (Py.getitem formatted_response "hasMore")
               else ret has_more) ;;
  has_key <- lift (Py.contains "data" formatted_response) ;;
  data <- (if has_key : bool then lift (Py.getitem formatted_response "data")
           else ret data) ;;
  r <- fetch_setup_loop fuel url offset has_more data formatted_response ;;
  finish (fst r) (snd r).

Definition _post_setup_data (url : string) (data : pyval) : M pyval :=
  _set_setup_session ;;;
  response <- admin_session_post url data ;;
  raise_for_status response ;;;
  json_loads response.

(** *** [create_service_allocation] *)

Definition create_service_allocation (service_id : string)
    (start_date end_date start_time end_time location_id resource_id reason
     all_day : pyval) : M pyval :=
  o <- get_self ;;
  let create_service_allocation_url :=
    (setup_api o ++ "/services/" ++ service_id ++ "/allocations")%string in
  let payload : dict := [] in
  startDate <- date_argument start_date ;;
  let payload := Py.set "startDate" (PStr startDate) payload in
  endDate <- date_argument end_date ;;
  let payload := Py.set "endDate" (PStr endDate) payload in
  let payload := set_if location_id "locationId" payload in
  let payload := set_if resource_id "resourceId" payload in
  let payload := set_if start_time "startTime" payload in
  let payload := set_if end_time "endTime" payload in
  let payload := set_if reason "reason" payload in
  let payload :=
    if Py.truthy all_day then Py.set "allDay" (PStr "true") payload else payload in
  _post_setup_data create_service_allocation_url (PDict payload).

(** *** Resources and appointments *)

(** [d.update(extra)]: every item of [extra] is assigned into [d], in
    order. *)
Definition dict_update (d extra : dict) : dict :=
  fold_left (fun acc kv => Py.set (fst kv) (snd kv) acc) extra d.

Section DateTime.

(** [datetime.datetime] objects and their [isoformat()], which the methods
    only pass around. *)
Variable datetime : Type.
Variable datetime_isoformat : datetime -> string.

(** An argument that may be a [datetime] object. *)
Inductive argument : Type :=
| Value (v : pyval)
| DateTime (t : datetime).

(** A [datetime] object always tests true. *)
Definition argument_truthy (a : argument) : bool :=
  match a with
  | Value v => Py.truthy v
  | DateTime _ => true
  end.

(** The date-time arguments: a [datetime] is formatted, a [str] is taken as
    it is, anything else (a [date] too) is a [TypeError]. *)
Definition datetime_argument (a : argument) : exn + string :=
  match a with
  | DateTime t => inr (datetime_isoformat t)
  | Value (PStr s) => inr s
  | Value _ => inl TypeError
  end.

Definition _get_resources_data (email description location_id group_id
    timezone_id addressline1 addressline2 city state country postal_code
    contact_preferred_phone_type contact_home_phone contact_mobile_phone
    contact_business_phone contact_business_phone_ext contact_skype_username
    : pyval) (effective_date : argument) (notification_type display_color
    google_calendar_id outlook_calendar_id ignore_business_hours gender hourly
    calendar_availability sort_key bio_link : pyval) : exn + dict :=
  let payload : dict := [] in
  let payload := set_if email "email" payload in
  let payload := set_if description "description" payload in
  let payload := set_if location_id "locationId" payload in
  let payload := set_if group_id "groupId" payload in
  let payload := set_if timezone_id "timezoneId" payload in
  let address : dict := [] in
  let address :=
    if any_truthy [addressline1; addressline2; city; state; postal_code; country]
    then
      let address := Py.set "addressline1" addressline1 address in
      let address := Py.set "addressline2" addressline2 address in
      let address := Py.set "city" city address in
      let address := Py.set "state" state address in
      let address := Py.set "postalCode" postal_code address in
      Py.set "country" country address
    else address in
  let contact : dict := [] in
  let contact :=
    if any_truthy [contact_preferred_phone_type; contact_home_phone;
                   contact_mobile_phone; contact_business_phone;
                   contact_business_phone_ext; contact_skype_username]
    then
      let contact := Py.set "PreferredPhoneType" contact_preferred_phone_type contact in
      let contact := set_if contact_home_phone "homePhone" contact in
      let contact := set_if contact_mobile_phone "mobilePhone" contact in
      let contact := set_if contact_business_phone "businessPhone" contact in
      let contact := set_if contact_business_phone_ext "businessPhoneExt" contact in
      set_if contact_skype_username "skypeUsername" contact
    else contact in
  let options : dict := [] in
  let options : exn + dict :=
    if argument_truthy effective_date
       || any_truthy [notification_type; display_color; google_calendar_id;
                      outlook_calendar_id; ignore_business_hours; gender;
                      hourly; calendar_availability; sort_key; bio_link]
    then
      match
        (if argument_truthy effective_date then
           match datetime_argument effective_date with
           | inr s => inr (Py.set "effectiveDate" (PStr s) options)
           | inl e => inl e
           end
         else inr options)
      with
      | inl e => inl e
      | inr options =>
          let options := set_if notification_type "notificationType" options in
          let options := set_if display_color "displayColor" options in
          let options := set_if google_calendar_id "googleCalendarId" options in
          let options := set_if outlook_calendar_id "outlookCalendarId" options in
          let options :=
            if Py.truthy ignore_business_hours
            then Py.set "ignoreBusinessHours" (PStr "true") options else options in
          let options := set_if gender "gender" options in
          let options := set_if hourly "hourly" options in
          let options := set_if calendar_availability "calendarAvailability" options in
          let options := set_if sort_key "sortKey" options in
          inr (set_if bio_link "bioLink" options)
      end
    else inr options in
  match options with
  | inl e => inl e
  | inr options =>
      let payload := set_if (PDict address) "address" payload in
      let payload := set_if (PDict contact) "contact" payload in
      inr (set_if (PDict options) "options" payload)
  end.

Definition create_resource (name email description location_id group_id
    timezone_id addressline1 addressline2 city state country postal_code
    contact_preferred_phone_type contact_home_phone contact_mobile_phone
    contact_business_phone contact_business_phone_ext contact_skype_username
    : pyval) (effective_date : argument) (notification_type display_color
    google_calendar_id outlook_calendar_id ignore_business_hours gender hourly
    calendar_availability sort_key bio_link : pyval) : M pyval :=
  o <- get_self ;;
  let create_resource_url := (setup_api o ++ "/resources")%string in
  let payload : dict := [("name", name)]%string in
  extra <- lift (_get_resources_data email description location_id group_id
                   timezone_id addressline1 addressline2 city state country
                   postal_code contact_preferred_phone_type contact_home_phone
                   contact_mobile_phone contact_business_phone
                   contact_business_phone_ext contact_skype_username
                   effective_date notification_type display_color
                   google_calendar_id outlook_calendar_id ignore_business_hours
                   gender hourly calendar_availability sort_key bio_link) ;;
  let payload := dict_update payload extra in
  _post_setup_data create_resource_url (PDict payload).

Definition create_appointment (service_id : pyval)
    (start_date_time end_date_time : argument)
    (resource_id location_id customer_id service_allocation_id booked_by : pyval)
    : M pyval :=
  o <- get_self ;;
  let appointment_url := (consumer_api o ++ "/appointments")%string in
  let payload : dict := [("serviceId", service_id)]%string in
  startDateTime <- lift (datetime_argument start_date_time) ;;
  let payload := Py.set "startDateTime" (PStr startDateTime) payload in
  endDateTime <- lift (datetime_argument end_date_time) ;;
  let payload := Py.set "endDateTime" (PStr endDateTime) payload in
  let payload := set_if customer_id "customerId" payload in
  let payload := set_if booked_by "bookedBy" payload in
  let payload := set_if resource_id "resourceId" payload in
  let payload := set_if location_id "locationId" payload in
  let payload := set_if service_allocation_id "serviceAllocationId" payload in
  _post_data appointment_url (PDict payload).

End DateTime.

Arguments Value {datetime} v.
Arguments DateTime {datetime} t.

(** * What the statements speak of *)

(** The world after some more resource requests were made and answered:
    [reqs] joined the trace and [rest] is what the server has left to say. *)
Definition after_requests (reqs : list Request) (rest : list (option Response))
    (w : World) : World :=
  mkWorld (now w) (token_endpoint w) rest (trace w ++ reqs) (next_id w).

(** The GET requests of [n] consecutive pages, the first at [offset]. *)
Fixpoint page_requests (b : option string) (url : string) (offset : Z) (n : nat)
    : list Request :=
  match n with
  | O => []
  | S n' => ReqGet b (page_url url offset) :: page_requests b url (offset + 100) n'
  end.

(** The server answers with page [p]: a 2xx status and a body that decodes
    to [p]. *)
Definition delivers (p : pyval) (r : Response) : Prop :=
  is_success (status_code r) = true /\ decoded r = Some p.

(** What the loop reads from a page. *)
Definition page_data (p : pyval) : option (list pyval) :=
  match Py.getitem p "data" with
  | inr (PList l) => Some l
  | _ => None
  end.

Definition page_has_more (p : pyval) : option bool :=
  match Py.getitem p "hasMore" with
  | inr v => Some (Py.truthy v)
  | inl _ => None
  end.

(** A page after which the fetch goes on: a list of items and a true
    [hasMore]. *)
Definition continuing (p : pyval) : Prop :=
  (exists l, page_data p = Some l) /\ page_has_more p = Some true.

Definition items_of (p : pyval) : list pyval :=
  match page_data p with Some l => l | None => [] end.

Definition items (ps : list pyval) : list pyval := flat_map items_of ps.

(** The session state as the spec names it. *)
Definition installed (o : OnSchedService) : option Token :=
  match session o with
  | Some s => token s
  | None => None
  end.

(** The state after the refresh branch of [_set_session] asked for a token:
    a new session object holding [t], one token request on the trace. *)
Definition refreshed (t : option Token) (rest : list (option Token)) (st : State)
    : State :=
  let o := self st in
  let w := world st in
  mkState
    (set_session
       (Some (mkSession (next_id w) (mkClient (client_id o) (scope o)) t)) o)
    (mkWorld (now w) rest (http_server w)
       (trace w ++ [ReqToken (token_url o) (client_id o) (client_secret o) (scope o)])
       (S (next_id w))).

(** What the code reads from the first page: an absent [hasMore] leaves
    [has_more = False], an absent [data] leaves [data = None]. *)
Definition first_has_more (d0 : dict) : pyval :=
  match Py.lookup "hasMore" d0 with Some v => v | None => PBool false end.

Definition first_data (d0 : dict) : pyval :=
  match Py.lookup "data" d0 with Some v => v | None => PNone end.

(** The last page ends the fetch: its [hasMore] tests false, or it is the
    first page and has no [hasMore]. *)
Definition ends_fetch (mids : list pyval) (dl : dict) : bool :=
  match Py.lookup "hasMore" dl with
  | Some v => negb (Py.truthy v)
  | None => match mids with [] => true | _ :: _ => false end
  end.

(** The state a fetch of [n] pages leaves behind. *)
Definition fetched (b : option string) (url : string) (n : nat)
    (rest : list (option Response)) (st1 : State) : State :=
  mkState (self st1) (after_requests (page_requests b url 0 n) rest (world st1)).

(** The bearer token the object's session sends. *)
Definition bearer (o : OnSchedService) : option string :=
  match session o with
  | Some s => bearer_of s
  | None => None
  end.

(** Neither session method touches the configured URLs. *)
Definition same_urls (o o' : OnSchedService) : Prop :=
  token_url o' = token_url o /\ consumer_api o' = consumer_api o /\
  setup_api o' = setup_api o.

(** A date argument of an accepted type. *)
Definition date_or_str (v : pyval) : bool :=
  match v with
  | PDate _ | PStr _ => true
  | _ => false
  end.

(** ** Sample clients and servers *)

(** A 200 answer whose body decodes to [v]. *)
Definition reply (v : pyval) : Response := mkResponse 200 (Some v).

Definition three_pages_0 : pyval :=
  PDict [("hasMore", PBool true); ("data", PList [PInt 1; PInt 2]);
         ("total", PInt 5)]%string.

Definition three_pages_1 : pyval :=
  PDict [("hasMore", PBool true); ("data", PList [PInt 3; PInt 4]);
         ("total", PInt 5)]%string.

Definition three_pages_2 : dict :=
  [("hasMore", PBool false); ("data", PList [PInt 5]); ("total", PInt 5)]%string.

(** A client fresh from the constructor's assignments, and a world in which
    the token endpoint grants a token valid until 4600 and the server has
    the three pages ready. *)
Definition demo_service : OnSchedService :=
  init_attributes "id" "secret" "OnSchedAPI" (PStr "sandbox").

Definition demo_world : World :=
  mkWorld 1000 [Some (mkToken "tok" 4600)]
    [Some (reply three_pages_0); Some (reply three_pages_1);
     Some (reply (PDict three_pages_2))]
    [] 0.

Definition demo_state : State := mkState demo_service demo_world.

(** A one-page server whose list is empty, and one whose page has items but
    no [total]. *)
Definition empty_page : dict :=
  [("hasMore", PBool false); ("data", PList []); ("total", PInt 0)]%string.

Definition untotalled_page : dict :=
  [("hasMore", PBool false); ("data", PList [PInt 1])]%string.

Definition one_page_state (d : dict) : State :=
  mkState demo_service
    (mkWorld 1000 [Some (mkToken "tok" 4600)] [Some (reply (PDict d))] [] 0).

(** The server of the three pages when its second answer is a 500. *)
Definition failing_state : State :=
  mkState demo_service
    (mkWorld 1000 [Some (mkToken "tok" 4600)]
       [Some (reply three_pages_0); Some (mkResponse 500 None);
        Some (reply (PDict three_pages_2))]
       [] 0).

(** Two-page servers whose second page lacks a field. *)
Definition no_has_more_page : dict :=
  [("data", PList [PInt 3; PInt 4]); ("total", PInt 4)]%string.

Definition no_data_page : dict :=
  [("hasMore", PBool false); ("total", PInt 2)]%string.

Definition two_page_state (d : dict) : State :=
  mkState demo_service
    (mkWorld 1000 [Some (mkToken "tok" 4600)]
       [Some (reply three_pages_0); Some (reply (PDict d))] [] 0).

(** A single object, as [location] gets it: no [data], no [hasMore]. *)
Definition location_object : dict :=
  [("id", PStr "loc-1"); ("name", PStr "Head office"); ("total", PInt 9)]%string.

(** A client whose session holds a token that expired at 500, at clock
    reading 1000, facing a token endpoint that does not answer. *)
Definition expired_state : State :=
  mkState
    (set_session
       (Some (mkSession 0 (mkClient "id" "OnSchedAPI") (Some (mkToken "old" 500))))
       demo_service)
    (mkWorld 1000 [None] [] [] 1).

(** ** The two sessions exchanged *)

Definition swap_sessions (o : OnSchedService) : OnSchedService :=
  mkService (client_id o) (client_secret o) (scope o) (token_url o)
            (consumer_api o) (setup_api o) (admin_session o) (session o).

Definition swap_state (st : State) : State := on_self swap_sessions st.

Definition swap_result {A} (r : outcome A * State) : outcome A * State :=
  (fst r, swap_state (snd r)).

(** [m'] does with the admin session what [m] does with the consumer
    session. *)
Definition twin {A} (m m' : M A) : Prop :=
  forall st, m' st = swap_result (m (swap_state st)).

(** A client with a valid consumer token and no admin session, and one with
    the two exchanged. *)
Definition valid_service : OnSchedService :=
  set_session (Some (mkSession 0 (mkClient "id" "OnSchedAPI") (Some (mkToken "tok" 4600))))
    demo_service.

Definition valid_state (answers : list (option Response)) : State :=
  mkState valid_service (mkWorld 1000 [] answers [] 1).

(** The text a date argument is sent as, when it is of an accepted type. *)
Definition date_text (v : pyval) : option string :=
  match v with
  | PDate d => Some (isoformat d)
  | PStr s => Some s
  | _ => None
  end.

(** A date-time argument of an accepted type. *)
Definition datetime_or_str {datetime : Type} (a : argument datetime) : bool :=
  match a with
  | DateTime _ => true
  | Value (PStr _) => true
  | Value _ => false
  end.

(** The shape of the state a run of the loop leaves: [n] page requests from
    [offset] on, each answered by at most one of the answers [used]. *)
Definition loop_trail (b : option string) (url : string) (offset : Z)
    (bound : nat) (st st' : State) : Prop :=
  exists n used rest,
    st' = mkState (self st)
            (after_requests (page_requests b url offset n) rest (world st)) /\
    http_server (world st) = used ++ rest /\
    (List.length used <= n)%nat /\ (n <= bound)%nat.

(** A last page with a stale [count] and a field of its own. *)
Definition annotated_page : dict :=
  [("hasMore", PBool false); ("count", PInt 1); ("data", PList [PInt 3]);
   ("total", PInt 3); ("note", PStr "end")]%string.

Definition dataless_page : dict := [("hasMore", PBool true); ("total", PInt 2)]%string.

(** A single page with two items. *)
Definition ab_page : dict :=
  [("hasMore", PBool false); ("data", PList [PStr "a"; PStr "b"]); ("total", PInt 2)]%string.

(** * Properties *)

(** ** The test of [_set_session] *)

Lemma token_valid_true (s : option OAuth2Session) (ts : Z) :
  token_valid s ts = true <->
  exists x t, s = Some x /\ token x = Some t /\ expires_at t > ts.
Proof.
  unfold token_valid. split.
  - destruct s as [x|]; [|discriminate].
    destruct (token x) as [t|] eqn:E; [|discriminate].
    intros H. exists x, t. repeat split; trivial.
    apply Z.gtb_lt in H. lia.
  - intros (x & t & -> & E & H). rewrite E. apply Z.gtb_lt. lia.
Qed.

Lemma token_valid_false (s : option OAuth2Session) (ts : Z) :
  token_valid s ts = false <->
  s = None \/ (exists x, s = Some x /\ token x = None) \/
  (exists x t, s = Some x /\ token x = Some t /\ expires_at t <= ts).
Proof.
  unfold token_valid. split.
  - destruct s as [x|]; [|now left].
    destruct (token x) as [t|] eqn:E.
    + intros H. right. right. exists x, t. repeat split; trivial.
      destruct (Z.gtb_spec (expires_at t) ts); [discriminate | lia].
    + intros _. right. left. now exists x.
  - intros [-> | [(x & -> & E) | (x & t & -> & E & H)]]; trivial.
    + now rewrite E.
    + rewrite E. destruct (Z.gtb_spec (expires_at t) ts); [lia | trivial].
Qed.

(** A call of [_set_session] on a valid token does nothing. *)
Lemma set_session_valid (st : State) :
  token_valid (session (self st)) (now (world st)) = true ->
  _set_session st = (Return tt, st).
Proof.
  intros H. unfold _set_session, bind, unix_timestamp_now, get_self.
  now rewrite H.
Qed.

Lemma set_session_refresh (st : State) :
  token_valid (session (self st)) (now (world st)) = false ->
  _set_session st =
  match token_endpoint (world st) with
  | Some t :: rest => (Return tt, refreshed (Some t) rest st)
  | None :: rest => (Raise OAuth2Error, refreshed None rest st)
  | [] => (Raise OAuth2Error, refreshed None [] st)
  end.
Proof.
  intros H. unfold _set_session, bind, unix_timestamp_now, get_self.
  rewrite H. cbn.
  destruct (token_endpoint (world st)) as [|[t|] rest] eqn:E; cbn;
    unfold refreshed, log, bump_id, set_token_endpoint, set_session, set_token;
    cbn; rewrite ?E; reflexivity.
Qed.

Lemma set_session_has_session (st st1 : State) :
  _set_session st = (Return tt, st1) ->
  exists s, session (self st1) = Some s.
Proof.
  destruct (token_valid (session (self st)) (now (world st))) eqn:V.
  - rewrite (set_session_valid st V). intros [= <-].
    apply token_valid_true in V. destruct V as (x & _ & -> & _). now exists x.
  - rewrite (set_session_refresh st V).
    destruct (token_endpoint (world st)) as [|[t|] rest]; try discriminate.
    intros [= <-]. cbn. eauto.
Qed.

(** ** The world under requests *)

Lemma after_requests_nil (w : World) :
  after_requests [] (http_server w) w = w.
Proof. destruct w. unfold after_requests. cbn. now rewrite app_nil_r. Qed.

Lemma after_requests_twice qs1 qs2 rest1 rest2 (w : World) :
  after_requests qs2 rest2 (after_requests qs1 rest1 w) =
  after_requests (qs1 ++ qs2) rest2 w.
Proof. unfold after_requests. cbn. now rewrite app_assoc. Qed.

Lemma exchange_answer (q : Request) (st : State) r rest :
  http_server (world st) = Some r :: rest ->
  exchange q st = (Return r, mkState (self st) (after_requests [q] rest (world st))).
Proof. intros H. unfold exchange. cbn. now rewrite H. Qed.

Lemma session_get_answer (url : string) (st : State) s r rest :
  session (self st) = Some s ->
  http_server (world st) = Some r :: rest ->
  session_get url st =
  (Return r,
   mkState (self st) (after_requests [ReqGet (bearer_of s) url] rest (world st))).
Proof.
  intros Hs H. unfold session_get. rewrite Hs. now apply exchange_answer.
Qed.

Lemma raise_for_status_success (r : Response) (st : State) :
  is_success (status_code r) = true -> raise_for_status r st = (Return tt, st).
Proof. intros H. unfold raise_for_status. now rewrite H. Qed.

Lemma raise_for_status_failure (r : Response) (st : State) :
  is_success (status_code r) = false ->
  raise_for_status r st = (Raise (HTTPError (status_code r)), st).
Proof. intros H. unfold raise_for_status. now rewrite H. Qed.

(** A delivered page, up to the decoded value. *)
Lemma get_page {B} (url : string) (st : State) s r rest p (k : pyval -> M B) :
  session (self st) = Some s ->
  http_server (world st) = Some r :: rest ->
  delivers p r ->
  (response <- session_get url ;;
   raise_for_status response ;;;
   formatted_response <- json_loads response ;;
   k formatted_response) st =
  k p (mkState (self st) (after_requests [ReqGet (bearer_of s) url] rest (world st))).
Proof.
  intros Hs H [Hc Hd]. unfold bind at 1.
  rewrite (session_get_answer url st s r rest Hs H).
  unfold bind at 1. rewrite raise_for_status_success by assumption.
  unfold bind at 1. unfold json_loads. now rewrite Hd.
Qed.

(** ** One iteration of the loop *)

Lemma fetch_loop_step fuel url off hm data fr st s r rest p d data' hm' :
  Py.truthy hm = true ->
  session (self st) = Some s ->
  http_server (world st) = Some r :: rest ->
  delivers p r ->
  Py.getitem p "data" = inr d ->
  Py.iadd data d = inr data' ->
  Py.getitem p "hasMore" = inr hm' ->
  fetch_loop (S fuel) url off hm data fr st =
  fetch_loop fuel url (off + 100) hm' data' p
    (mkState (self st)
       (after_requests [ReqGet (bearer_of s) (page_url url (off + 100))] rest (world st))).
Proof.
  intros Ht Hs H Hp Hd Ha Hm. cbn [fetch_loop]. rewrite Ht.
  rewrite (get_page _ st s r rest p _ Hs H Hp).
  rewrite Hd. unfold lift at 1, bind at 1, ret at 1.
  rewrite Ha. unfold lift at 1, bind at 1, ret at 1.
  rewrite Hm. unfold lift at 1, bind at 1, ret at 1.
  reflexivity.
Qed.

Lemma fetch_loop_exit fuel url off hm data fr st :
  Py.truthy hm = false ->
  fetch_loop fuel url off hm data fr st = (Return (data, fr), st).
Proof. intros H. destruct fuel; cbn [fetch_loop]; now rewrite H. Qed.

(** ** Fuel

    Every iteration consumes one scripted answer, so a fetch given more
    fuel than the server has answers never stops for lack of fuel. *)

Lemma fetch_loop_enough_fuel : forall fuel url off hm data fr st,
  (List.length (http_server (world st)) < fuel)%nat ->
  fst (fetch_loop fuel url off hm data fr st) <> OutOfFuel.
Proof.
  induction fuel as [|fuel IH]; intros url off hm data fr st Hlen; [lia|].
  cbn [fetch_loop]. destruct (Py.truthy hm); [|discriminate].
  unfold bind at 1. unfold session_get.
  destruct (session (self st)) as [s|]; [|discriminate].
  unfold exchange. cbn [world log http_server].
  destruct (http_server (world st)) as [|[r|] rest] eqn:E; try discriminate.
  unfold bind at 1. unfold raise_for_status.
  destruct (is_success (status_code r)); [|discriminate].
  unfold ret at 1. unfold bind at 1. unfold json_loads.
  destruct (decoded r) as [p|]; [|discriminate].
  unfold ret at 1. unfold bind at 1.
  destruct (Py.getitem p "data") as [e|d]; [discriminate|].
  unfold lift at 1, ret at 1. unfold bind at 1.
  destruct (Py.iadd data d) as [e|data']; [discriminate|].
  unfold lift at 1, ret at 1. unfold bind at 1.
  destruct (Py.getitem p "hasMore") as [e|hm']; [discriminate|].
  unfold lift at 1, ret at 1.
  apply IH. cbn. cbn in Hlen. lia.
Qed.

Lemma last_default {A} (l : list A) :
  forall (b d d' : A), last (b :: l) d = last (b :: l) d'.
Proof.
  induction l as [|c l IH]; intros b d d'; [reflexivity|].
  change (last (b :: c :: l) d) with (last (c :: l) d).
  change (last (b :: c :: l) d') with (last (c :: l) d').
  apply IH.
Qed.

Lemma last_cons {A} (a d : A) (l : list A) : last (a :: l) d = last l a.
Proof. destruct l as [|b l]; [reflexivity|]. apply (last_default l b d a). Qed.

Lemma continuing_reads (p : pyval) :
  continuing p ->
  exists l hm, Py.getitem p "data" = inr (PList l) /\
               Py.getitem p "hasMore" = inr hm /\
               Py.truthy hm = true /\ items_of p = l.
Proof.
  unfold continuing, items_of, page_data, page_has_more.
  intros [[l Hl] Hm].
  destruct (Py.getitem p "data") as [e|[]]; try discriminate.
  destruct (Py.getitem p "hasMore") as [e|hm]; try discriminate.
  injection Hl as ->. injection Hm as Hm. now exists l, hm.
Qed.

(** ** The loop over the pages that say [hasMore] *)

Lemma fetch_loop_continue url :
  forall mids rs, Forall2 delivers mids rs -> Forall continuing mids ->
  forall fuel off hm acc fr st rest s,
    Py.truthy hm = true ->
    session (self st) = Some s ->
    http_server (world st) = map Some rs ++ rest ->
    exists hm', Py.truthy hm' = true /\
      fetch_loop (List.length mids + fuel) url off hm (PList acc) fr st =
      fetch_loop fuel url (off + 100 * Z.of_nat (List.length mids)) hm'
        (PList (acc ++ items mids)) (last mids fr)
        (mkState (self st)
           (after_requests (page_requests (bearer_of s) url (off + 100) (List.length mids))
              rest (world st))).
Proof.
  induction 1 as [|p r mids rs Hp _ IH]; intros Hc fuel off hm acc fr st rest s Ht Hs H.
  - exists hm. split; [assumption|]. cbn [List.length items flat_map page_requests last Nat.add].
    cbn in H. rewrite <- H, after_requests_nil, app_nil_r.
    replace (off + 100 * Z.of_nat 0) with off by lia. now destruct st.
  - inversion Hc as [|? ? Hcp Hcm]; subst.
    destruct (continuing_reads p Hcp) as (l & hm1 & Hd & Hm & Ht1 & Hl).
    cbn [List.length Nat.add].
    rewrite (fetch_loop_step _ url off hm (PList acc) fr st s r (map Some rs ++ rest)
               p (PList l) (PList (acc ++ l)) hm1 Ht Hs H Hp Hd eq_refl Hm).
    destruct (IH Hcm fuel (off + 100) hm1 (acc ++ l) p
                (mkState (self st)
                   (after_requests [ReqGet (bearer_of s) (page_url url (off + 100))]
                      (map Some rs ++ rest) (world st)))
                rest s Ht1 Hs eq_refl) as (hm' & Ht' & E).
    exists hm'. split; [assumption|]. rewrite E. cbn [self world].
    rewrite after_requests_twice, last_cons.
    cbn [items flat_map page_requests app]. rewrite Hl, <- app_assoc.
    replace (off + 100 + 100 * Z.of_nat (List.length mids))
      with (off + 100 * Z.of_nat (S (List.length mids))) by lia.
    reflexivity.
Qed.

(** ** The first page *)

Lemma fetch_first_page fuel url st st1 s r0 rest d0 :
  _set_session st = (Return tt, st1) ->
  session (self st1) = Some s ->
  http_server (world st1) = Some r0 :: rest ->
  delivers (PDict d0) r0 ->
  _fetch_data fuel url st =
  (r <- fetch_loop fuel url 0 (first_has_more d0) (first_data d0) (PDict d0) ;;
   finish (fst r) (snd r))
    (mkState (self st1)
       (after_requests [ReqGet (bearer_of s) (page_url url 0)] rest (world st1))).
Proof.
  intros H0 Hs H Hp. unfold _fetch_data. unfold bind at 1. rewrite H0.
  rewrite (get_page _ st1 s r0 rest (PDict d0) _ Hs H Hp).
  unfold first_has_more, first_data, Py.contains, Py.getitem, Py.mem.
  destruct (Py.lookup "hasMore" d0), (Py.lookup "data" d0); reflexivity.
Qed.

Lemma continuing_dict (p : pyval) : continuing p -> exists d, p = PDict d.
Proof.
  intros H. destruct (continuing_reads p H) as (l & hm & Hd & _).
  destruct p; try discriminate. eauto.
Qed.

(** After a first page and any number of further pages that all say
    [hasMore], the fetch is at the head of the loop with every item seen so
    far and one GET per page behind it. *)
Lemma fetch_prefix fuel url st st1 s p0 mids rs rest :
  _set_session st = (Return tt, st1) ->
  session (self st1) = Some s ->
  http_server (world st1) = map Some rs ++ rest ->
  Forall2 delivers (p0 :: mids) rs ->
  Forall continuing (p0 :: mids) ->
  exists hm fr, Py.truthy hm = true /\
    _fetch_data (List.length mids + fuel) url st =
    (r <- fetch_loop fuel url (100 * Z.of_nat (List.length mids)) hm
            (PList (items (p0 :: mids))) fr ;;
     finish (fst r) (snd r))
      (mkState (self st1)
         (after_requests
            (page_requests (bearer_of s) url 0 (S (List.length mids)))
            rest (world st1))).
Proof.
  intros H0 Hs H Hd Hc.
  inversion Hd as [|? r0 ? rs' Hp0 Hd']; subst.
  inversion Hc as [|? ? Hc0 Hc']; subst.
  destruct (continuing_dict p0 Hc0) as [d0 ->].
  destruct (continuing_reads _ Hc0) as (l0 & hm0 & Hl0 & Hm0 & Ht0 & Hi0).
  cbn [map app] in H.
  rewrite (fetch_first_page _ url st st1 s r0 (map Some rs' ++ rest) d0 H0 Hs H Hp0).
  cbn [Py.getitem] in Hl0, Hm0.
  assert (first_has_more d0 = hm0) as ->.
  { unfold first_has_more. destruct (Py.lookup "hasMore" d0); congruence. }
  assert (first_data d0 = PList l0) as ->.
  { unfold first_data. destruct (Py.lookup "data" d0); congruence. }
  destruct (fetch_loop_continue url mids rs' Hd' Hc' fuel 0 hm0 l0 (PDict d0)
              (mkState (self st1)
                 (after_requests [ReqGet (bearer_of s) (page_url url 0)]
                    (map Some rs' ++ rest) (world st1)))
              rest s Ht0 Hs eq_refl) as (hm & Ht & E).
  exists hm, (last mids (PDict d0)). split; [assumption|].
  unfold bind at 1. rewrite E. cbn [self world].
  rewrite after_requests_twice. cbn [items flat_map page_requests app].
  rewrite Hi0. reflexivity.
Qed.

Lemma page_requests_snoc b url : forall n off,
  page_requests b url off n ++ [ReqGet b (page_url url (off + 100 * Z.of_nat n))] =
  page_requests b url off (S n).
Proof.
  induction n as [|n IH]; intros off.
  - cbn. now replace (off + 0) with off by lia.
  - cbn [page_requests app]. f_equal.
    replace (off + 100 * Z.of_nat (S n)) with (off + 100 + 100 * Z.of_nat n) by lia.
    apply IH.
Qed.

(** ** A whole fetch *)

Lemma fetch_run fuel url st st1 s mids dl ll rs rest :
  _set_session st = (Return tt, st1) ->
  session (self st1) = Some s ->
  http_server (world st1) = map Some rs ++ rest ->
  Forall2 delivers (mids ++ [PDict dl]) rs ->
  Forall continuing mids ->
  Py.lookup "data" dl = Some (PList ll) ->
  ends_fetch mids dl = true ->
  (List.length mids <= fuel)%nat ->
  _fetch_data fuel url st =
  finish (PList (items mids ++ ll)) (PDict dl)
    (fetched (bearer_of s) url (S (List.length mids)) rest st1).
Proof.
  intros H0 Hs H Hd Hc Hl He Hf. unfold fetched. destruct mids as [|m0 mids].
  - inversion Hd as [|? r0 ? rs' Hp0 Hd']; subst. inversion Hd'; subst.
    cbn [map app] in H.
    rewrite (fetch_first_page fuel url st st1 s r0 rest dl H0 Hs H Hp0).
    unfold bind. rewrite fetch_loop_exit.
    + unfold first_data. rewrite Hl. reflexivity.
    + unfold first_has_more. unfold ends_fetch in He.
      destruct (Py.lookup "hasMore" dl); [|reflexivity].
      now apply negb_true_iff in He.
  - apply Forall2_app_inv_l in Hd. destruct Hd as (rs1 & rs2 & Hd1 & Hd2 & ->).
    inversion Hd2 as [|? rl ? ? Hpl Hnil]; subst. inversion Hnil; subst.
    rewrite map_app, <- app_assoc in H. cbn [map app] in H.
    cbn [List.length] in Hf.
    replace fuel with (List.length mids + S (fuel - S (List.length mids)))%nat by lia.
    destruct (fetch_prefix (S (fuel - S (List.length mids))) url st st1 s m0 mids rs1
                (Some rl :: rest) H0 Hs H Hd1 Hc) as (hm & fr & Ht & E).
    rewrite E. clear E. unfold bind at 1.
    unfold ends_fetch in He.
    destruct (Py.lookup "hasMore" dl) as [v|] eqn:Ev; [|discriminate].
    apply negb_true_iff in He.
    erewrite fetch_loop_step;
      [ | exact Ht | exact Hs | reflexivity | exact Hpl
        | cbn [Py.getitem]; rewrite Hl; reflexivity | reflexivity
        | cbn [Py.getitem]; rewrite Ev; reflexivity ].
    rewrite fetch_loop_exit by assumption. cbn [fst snd self world].
    rewrite after_requests_twice.
    replace (100 * Z.of_nat (List.length mids) + 100)
      with (0 + 100 * Z.of_nat (S (List.length mids))) by lia.
    rewrite page_requests_snoc. reflexivity.
Qed.

Lemma set_session_outcome (st : State) :
  fst (_set_session st) <> OutOfFuel /\
  http_server (world (snd (_set_session st))) = http_server (world st).
Proof.
  destruct (token_valid (session (self st)) (now (world st))) eqn:V.
  - rewrite (set_session_valid st V). split; [discriminate | reflexivity].
  - rewrite (set_session_refresh st V).
    destruct (token_endpoint (world st)) as [|[t|] rest];
      (split; [discriminate | reflexivity]).
Qed.

Lemma finish_outcome_fuel data page st : fst (finish data page st) <> OutOfFuel.
Proof.
  unfold finish. destruct (Py.truthy data); [|discriminate].
  unfold bind at 1. destruct (Py.getitem page "total") as [e|total]; [discriminate|].
  unfold lift at 1, ret at 1. unfold bind at 1.
  destruct (Py.setitem page "count" total) as [e|r]; [discriminate|].
  unfold lift at 1, ret at 1. unfold bind at 1.
  destruct (Py.setitem r "data" data) as [e|r']; discriminate.
Qed.

(** [_fetch_data] with as much fuel as the server has answers returns or
    raises. *)
Lemma fetch_data_enough_fuel fuel url st :
  (List.length (http_server (world st)) <= fuel)%nat ->
  fst (_fetch_data fuel url st) <> OutOfFuel.
Proof.
  intros Hlen. destruct (set_session_outcome st) as [Hn Hh].
  unfold _fetch_data. unfold bind at 1.
  destruct (_set_session st) as [[[]|e|] st1]; cbn [fst snd] in Hn, Hh;
    [|discriminate|contradiction].
  unfold bind at 1. unfold session_get.
  destruct (session (self st1)) as [s|]; [|discriminate].
  unfold exchange. cbn [world log http_server].
  destruct (http_server (world st1)) as [|[r|] rest] eqn:E; try discriminate.
  unfold bind at 1. unfold raise_for_status.
  destruct (is_success (status_code r)); [|discriminate].
  unfold ret at 1. unfold bind at 1. unfold json_loads.
  destruct (decoded r) as [p|]; [|discriminate].
  unfold ret at 1. unfold bind at 1.
  destruct (Py.contains "hasMore" p) as [e|b1]; [discriminate|].
  unfold lift at 1, ret at 1. unfold bind at 1.
  assert (Hloop : forall hm data st2,
            http_server (world st2) = rest ->
            fst ((r <- fetch_loop fuel url 0 hm data p ;; finish (fst r) (snd r)) st2)
            <> OutOfFuel).
  { intros hm data st2 H2. unfold bind.
    pose proof (fetch_loop_enough_fuel fuel url 0 hm data p st2) as Hl.
    destruct (fetch_loop fuel url 0 hm data p st2) as [[x|e|] st3].
    - apply finish_outcome_fuel.
    - discriminate.
    - exfalso. apply Hl; [|reflexivity].
      rewrite H2. rewrite <- Hh in Hlen. cbn in Hlen. lia. }
  assert (Hdata : forall hm st2,
            http_server (world st2) = rest ->
            fst ((has_key <- lift (Py.contains "data" p) ;;
                  data <- (if has_key : bool then lift (Py.getitem p "data")
                           else ret PNone) ;;
                  r <- fetch_loop fuel url 0 hm data p ;; finish (fst r) (snd r)) st2)
            <> OutOfFuel).
  { intros hm st2 H2. unfold bind at 1.
    destruct (Py.contains "data" p) as [e|b2]; [discriminate|].
    unfold lift at 1, ret at 1. unfold bind at 1. destruct b2.
    - destruct (Py.getitem p "data") as [e|d]; [discriminate|]. now apply Hloop.
    - now apply Hloop. }
  destruct b1.
  - destruct (Py.getitem p "hasMore") as [e|hm]; [discriminate|]. now apply Hdata.
  - now apply Hdata.
Qed.

Lemma bearer_session (o : OnSchedService) s :
  session o = Some s -> bearer_of s = bearer o.
Proof. intros H. unfold bearer. now rewrite H. Qed.

(** ** The three-page fetch *)

Lemma three_pages_continuing : Forall continuing [three_pages_0; three_pages_1].
Proof.
  repeat constructor; unfold page_data; cbn; eauto.
Qed.

(** C1.  On the three-page server sequence (hasMore/data/total =
    true/[1,2]/5, true/[3,4]/5, false/[5]/5), [_fetch_data] issues exactly
    three GET requests, at [&limit=100&offset=0], [&limit=100&offset=100]
    and [&limit=100&offset=200] in this order, consumes exactly these three
    answers, and returns the last page with [data = [1,2,3,4,5]] and
    [count = 5]. *)
Theorem fetch_data_three_pages fuel url st st1 r0 r1 r2 rest :
  _set_session st = (Return tt, st1) ->
  http_server (world st1) = Some r0 :: Some r1 :: Some r2 :: rest ->
  delivers three_pages_0 r0 ->
  delivers three_pages_1 r1 ->
  delivers (PDict three_pages_2) r2 ->
  (2 <= fuel)%nat ->
  _fetch_data fuel url st =
  (Return
     (PDict [("hasMore", PBool false);
             ("data", PList [PInt 1; PInt 2; PInt 3; PInt 4; PInt 5]);
             ("total", PInt 5); ("count", PInt 5)]%string),
   mkState (self st1)
     (after_requests
        [ReqGet (bearer (self st1)) (url ++ "&limit=100&offset=0");
         ReqGet (bearer (self st1)) (url ++ "&limit=100&offset=100");
         ReqGet (bearer (self st1)) (url ++ "&limit=100&offset=200")]%string
        rest (world st1))).
Proof.
  intros H0 H Hp0 Hp1 Hp2 Hf.
  destruct (set_session_has_session st st1 H0) as [s Hs].
  rewrite <- (bearer_session _ s Hs).
  rewrite (fetch_run fuel url st st1 s [three_pages_0; three_pages_1] three_pages_2
             [PInt 5] [r0; r1; r2] rest H0 Hs H);
    [reflexivity | | exact three_pages_continuing | reflexivity | reflexivity | exact Hf].
  cbn [app]. auto using Forall2.
Qed.

Lemma fetch_data_three_pages_witness :
  _fetch_data 2 "https://sandbox-api.onsched.com/consumer/v1/locations?" demo_state =
  (Return
     (PDict [("hasMore", PBool false);
             ("data", PList [PInt 1; PInt 2; PInt 3; PInt 4; PInt 5]);
             ("total", PInt 5); ("count", PInt 5)]%string),
   mkState (self (snd (_set_session demo_state)))
     (after_requests
        [ReqGet (Some "tok"%string)
           "https://sandbox-api.onsched.com/consumer/v1/locations?&limit=100&offset=0";
         ReqGet (Some "tok"%string)
           "https://sandbox-api.onsched.com/consumer/v1/locations?&limit=100&offset=100";
         ReqGet (Some "tok"%string)
           "https://sandbox-api.onsched.com/consumer/v1/locations?&limit=100&offset=200"]
        [] (world (snd (_set_session demo_state))))).
Proof.
  apply (fetch_data_three_pages 2
           "https://sandbox-api.onsched.com/consumer/v1/locations?"
           demo_state (snd (_set_session demo_state))
           (reply three_pages_0) (reply three_pages_1) (reply (PDict three_pages_2)) []).
  - reflexivity.
  - reflexivity.
  - split; reflexivity.
  - split; reflexivity.
  - split; reflexivity.
  - lia.
Defined.

(** ** The token session *)

Lemma installed_valid (o : OnSchedService) (ts : Z) :
  token_valid (session o) ts = true <->
  exists t, installed o = Some t /\ expires_at t > ts.
Proof.
  rewrite token_valid_true. unfold installed. split.
  - intros (x & t & -> & E & H). eauto.
  - intros (t & E & H). destruct (session o) as [x|]; [|discriminate]. eauto.
Qed.

Lemma installed_invalid (o : OnSchedService) (ts : Z) :
  token_valid (session o) ts = false <->
  installed o = None \/ exists t, installed o = Some t /\ expires_at t <= ts.
Proof.
  rewrite token_valid_false. unfold installed. split.
  - intros [-> | [(x & -> & E) | (x & t & -> & E & H)]]; eauto.
  - intros [E | (t & E & H)]; destruct (session o) as [x|]; eauto; try discriminate.
    right. right. eauto.
Qed.

Lemma set_session_installs (st st1 : State) :
  _set_session st = (Return tt, st1) -> exists t, installed (self st1) = Some t.
Proof.
  destruct (token_valid (session (self st)) (now (world st))) eqn:V.
  - rewrite (set_session_valid st V). intros [= <-].
    apply installed_valid in V. destruct V as (t & E & _). eauto.
  - rewrite (set_session_refresh st V).
    destruct (token_endpoint (world st)) as [|[t|] rest]; try discriminate.
    intros [= <-]. cbn. eauto.
Qed.

(** C2.  [_set_session] in every state: with a token installed whose
    [expires_at] is strictly greater than the clock reading it returns
    leaving object and world as they were, so that no call is made; with the
    token absent or [expires_at <= now] it makes exactly one call, a token
    request, and a granted token is the one installed; and after a call that
    returned, a token is installed and a second call at any clock reading
    within its validity changes nothing and makes no call. *)
Theorem set_session_ensure_valid (st : State) :
  (forall t, installed (self st) = Some t -> expires_at t > now (world st) ->
     _set_session st = (Return tt, st)) /\
  ((installed (self st) = None \/
    exists t, installed (self st) = Some t /\ expires_at t <= now (world st)) ->
   trace (world (snd (_set_session st))) =
     trace (world st) ++
     [ReqToken (token_url (self st)) (client_id (self st))
        (client_secret (self st)) (scope (self st))] /\
   forall t rest, token_endpoint (world st) = Some t :: rest ->
     fst (_set_session st) = Return tt /\
     installed (self (snd (_set_session st))) = Some t) /\
  (forall st1, _set_session st = (Return tt, st1) ->
     exists t, installed (self st1) = Some t /\
       forall now', expires_at t > now' ->
         _set_session (on_world (set_now now') st1) =
         (Return tt, on_world (set_now now') st1)).
Proof.
  split; [|split].
  - intros t E H. apply set_session_valid, installed_valid. eauto.
  - intros H. apply installed_invalid in H. rewrite (set_session_refresh st H).
    split.
    + destruct (token_endpoint (world st)) as [|[t|] rest]; reflexivity.
    + intros t rest ->. split; reflexivity.
  - intros st1 H. destruct (set_session_installs st st1 H) as [t E].
    exists t. split; [assumption|]. intros now' Hlt.
    apply set_session_valid, installed_valid. exists t. split; assumption.
Qed.

Lemma set_session_ensure_valid_witness :
  trace (world (snd (_set_session demo_state))) =
    [ReqToken SANDBOX_TOKEN_URL "id" "secret" "OnSchedAPI"] /\
  installed (self (snd (_set_session demo_state))) = Some (mkToken "tok" 4600) /\
  _set_session (snd (_set_session demo_state)) =
    (Return tt, snd (_set_session demo_state)) /\
  _set_session (on_world (set_now 4599) (snd (_set_session demo_state))) =
    (Return tt, on_world (set_now 4599) (snd (_set_session demo_state))).
Proof.
  destruct (set_session_ensure_valid demo_state) as (_ & H2 & H3).
  destruct (H2 (or_introl eq_refl)) as [Ht Hi].
  destruct (Hi (mkToken "tok" 4600) [] eq_refl) as [_ Hi'].
  split; [exact Ht | split; [exact Hi' | split]].
  - destruct (set_session_ensure_valid (snd (_set_session demo_state))) as (H1 & _ & _).
    apply (H1 (mkToken "tok" 4600)); [reflexivity | cbn; lia].
  - destruct (H3 (snd (_set_session demo_state)) eq_refl) as (t & Et & Hn).
    apply Hn. rewrite Hi' in Et. injection Et as <-. cbn. lia.
Defined.

(** ** The accumulated result *)

Lemma finish_outcome (acc : list pyval) (dl : dict) (st : State) :
  fst (finish (PList acc) (PDict dl) st) =
  match acc with
  | [] => Return (PDict dl)
  | _ :: _ =>
      match Py.lookup "total" dl with
      | Some total =>
          Return (PDict (Py.set "data" (PList acc) (Py.set "count" total dl)))
      | None => Raise (KeyError "total")
      end
  end.
Proof.
  destruct acc as [|x acc]; [reflexivity|].
  unfold finish. cbn [Py.truthy Py.getitem].
  destruct (Py.lookup "total" dl); reflexivity.
Qed.

(** C3, as the code has it.  A fetch of the pages [mids ++ [last]], every
    page with a list under [data], every page but the last saying
    [hasMore]: when the concatenation of the pages' [data] in page order is
    not empty and the last page has a [total], the result is the last page
    with [data] replaced by the concatenation and [count] set to that
    [total]; when the concatenation is empty the last page is returned as it
    is, without [count]; when it is not empty and the last page has no
    [total], the fetch raises [KeyError('total')]. *)
Theorem fetch_data_accumulated fuel url st st1 mids dl ll rs rest :
  _set_session st = (Return tt, st1) ->
  http_server (world st1) = map Some rs ++ rest ->
  Forall2 delivers (mids ++ [PDict dl]) rs ->
  Forall continuing mids ->
  Py.lookup "data" dl = Some (PList ll) ->
  ends_fetch mids dl = true ->
  (List.length mids <= fuel)%nat ->
  fst (_fetch_data fuel url st) =
  match items mids ++ ll with
  | [] => Return (PDict dl)
  | _ :: _ =>
      match Py.lookup "total" dl with
      | Some total =>
          Return (PDict (Py.set "data" (PList (items mids ++ ll))
                           (Py.set "count" total dl)))
      | None => Raise (KeyError "total")
      end
  end.
Proof.
  intros H0 H Hd Hc Hl He Hf.
  destruct (set_session_has_session st st1 H0) as [s Hs].
  rewrite (fetch_run fuel url st st1 s mids dl ll rs rest H0 Hs H Hd Hc Hl He Hf).
  apply finish_outcome.
Qed.

Lemma fetch_data_accumulated_witness :
  fst (_fetch_data 2 "u?" demo_state) =
  Return (PDict [("hasMore", PBool false);
                 ("data", PList [PInt 1; PInt 2; PInt 3; PInt 4; PInt 5]);
                 ("total", PInt 5); ("count", PInt 5)]%string).
Proof.
  apply (fetch_data_accumulated 2 "u?" demo_state (snd (_set_session demo_state))
           [three_pages_0; three_pages_1] three_pages_2 [PInt 5]
           [reply three_pages_0; reply three_pages_1; reply (PDict three_pages_2)] []).
  - reflexivity.
  - reflexivity.
  - repeat (constructor; [split; reflexivity|]). constructor.
  - exact three_pages_continuing.
  - reflexivity.
  - reflexivity.
  - cbn; lia.
Defined.

(** C3 as stated fails: with an empty accumulated list the returned page has
    no [count] although its [total] is 0, and with items but no [total] on
    the last page nothing is returned. *)
Lemma fetch_data_accumulated_counterexample :
  (fst (_fetch_data 1 "u?" (one_page_state empty_page)) = Return (PDict empty_page) /\
   Py.lookup "total" empty_page = Some (PInt 0) /\
   Py.lookup "count" empty_page = None) /\
  fst (_fetch_data 1 "u?" (one_page_state untotalled_page)) = Raise (KeyError "total").
Proof. repeat split. Qed.

(** ** Pages after the first *)

(** The state after the fetch asked for one more page past [n] pages. *)
Lemma fetched_next b url n rest rest' st1 q :
  q = ReqGet b (page_url url (100 * Z.of_nat n)) ->
  mkState (self (fetched b url n rest' st1))
    (after_requests [q] rest (world (fetched b url n rest' st1))) =
  fetched b url (S n) rest st1.
Proof.
  intros ->. unfold fetched. cbn [self world]. rewrite after_requests_twice.
  replace (100 * Z.of_nat n) with (0 + 100 * Z.of_nat n) by lia.
  now rewrite page_requests_snoc.
Qed.

Lemma fetch_loop_http_error fuel url off hm data fr st s r rest :
  Py.truthy hm = true ->
  session (self st) = Some s ->
  http_server (world st) = Some r :: rest ->
  is_success (status_code r) = false ->
  fetch_loop (S fuel) url off hm data fr st =
  (Raise (HTTPError (status_code r)),
   mkState (self st)
     (after_requests [ReqGet (bearer_of s) (page_url url (off + 100))] rest (world st))).
Proof.
  intros Ht Hs H Hc. cbn [fetch_loop]. rewrite Ht. unfold bind at 1.
  rewrite (session_get_answer _ st s r rest Hs H).
  unfold bind at 1. now rewrite raise_for_status_failure.
Qed.

Lemma fetch_loop_missing_data fuel url off hm data fr st s r rest d :
  Py.truthy hm = true ->
  session (self st) = Some s ->
  http_server (world st) = Some r :: rest ->
  delivers (PDict d) r ->
  Py.lookup "data" d = None ->
  fetch_loop (S fuel) url off hm data fr st =
  (Raise (KeyError "data"),
   mkState (self st)
     (after_requests [ReqGet (bearer_of s) (page_url url (off + 100))] rest (world st))).
Proof.
  intros Ht Hs H Hp Hd. cbn [fetch_loop]. rewrite Ht.
  rewrite (get_page _ st s r rest (PDict d) _ Hs H Hp).
  cbn [Py.getitem]. now rewrite Hd.
Qed.

Lemma fetch_loop_missing_has_more fuel url off hm acc fr st s r rest d l :
  Py.truthy hm = true ->
  session (self st) = Some s ->
  http_server (world st) = Some r :: rest ->
  delivers (PDict d) r ->
  Py.lookup "data" d = Some (PList l) ->
  Py.lookup "hasMore" d = None ->
  fetch_loop (S fuel) url off hm (PList acc) fr st =
  (Raise (KeyError "hasMore"),
   mkState (self st)
     (after_requests [ReqGet (bearer_of s) (page_url url (off + 100))] rest (world st))).
Proof.
  intros Ht Hs H Hp Hd Hm. cbn [fetch_loop]. rewrite Ht.
  rewrite (get_page _ st s r rest (PDict d) _ Hs H Hp).
  cbn [Py.getitem]. rewrite Hd, Hm. reflexivity.
Qed.

(** A fetch that reaches the loop head after the pages [p0 :: mids] and
    meets there a step that raises [e]. *)
Lemma fetch_raises_after fuel url st st1 s p0 mids rs r rest e :
  _set_session st = (Return tt, st1) ->
  session (self st1) = Some s ->
  http_server (world st1) = map Some rs ++ Some r :: rest ->
  Forall2 delivers (p0 :: mids) rs ->
  Forall continuing (p0 :: mids) ->
  (List.length mids < fuel)%nat ->
  (forall k off hm fr st2,
     Py.truthy hm = true -> session (self st2) = Some s ->
     http_server (world st2) = Some r :: rest ->
     fetch_loop (S k) url off hm (PList (items (p0 :: mids))) fr st2 =
     (Raise e,
      mkState (self st2)
        (after_requests [ReqGet (bearer_of s) (page_url url (off + 100))] rest
           (world st2)))) ->
  _fetch_data fuel url st =
  (Raise e, fetched (bearer_of s) url (S (S (List.length mids))) rest st1).
Proof.
  intros H0 Hs H Hd Hc Hf Hstep.
  replace fuel with (List.length mids + S (fuel - S (List.length mids)))%nat by lia.
  destruct (fetch_prefix (S (fuel - S (List.length mids))) url st st1 s p0 mids rs
              (Some r :: rest) H0 Hs H Hd Hc) as (hm & fr & Ht & E).
  rewrite E. clear E. unfold bind at 1.
  erewrite Hstep; [ | exact Ht | exact Hs | reflexivity ].
  f_equal. apply (fetched_next (bearer_of s) url (S (List.length mids))).
  f_equal. f_equal. lia.
Qed.

(** C5.  When the pages [p0 :: mids] (one or more) were fetched and each
    said [hasMore], and the next GET is answered with a status outside 2xx,
    the fetch raises [HTTPError] with that status: nothing is returned, the
    object is as [_set_session] left it, and the world has only the requests
    on its trace and the answers consumed. *)
Theorem fetch_data_page_failure fuel url st st1 p0 mids rs r rest :
  _set_session st = (Return tt, st1) ->
  http_server (world st1) = map Some rs ++ Some r :: rest ->
  Forall2 delivers (p0 :: mids) rs ->
  Forall continuing (p0 :: mids) ->
  status_code r < 200 \/ 300 <= status_code r ->
  (List.length mids < fuel)%nat ->
  _fetch_data fuel url st =
  (Raise (HTTPError (status_code r)),
   fetched (bearer (self st1)) url (S (S (List.length mids))) rest st1).
Proof.
  intros H0 H Hd Hc Hr Hf.
  destruct (set_session_has_session st st1 H0) as [s Hs].
  rewrite <- (bearer_session _ s Hs).
  apply (fetch_raises_after fuel url st st1 s p0 mids rs r rest _ H0 Hs H Hd Hc Hf).
  intros k off hm fr st2 Ht Hs2 H2.
  apply fetch_loop_http_error; trivial.
  unfold is_success. destruct Hr.
  - destruct (Z.leb_spec 200 (status_code r)); [lia | reflexivity].
  - destruct (Z.ltb_spec (status_code r) 300); [lia|]. apply andb_false_r.
Qed.

Lemma fetch_data_page_failure_witness :
  _fetch_data 1 "u?" failing_state =
  (Raise (HTTPError 500),
   fetched (Some "tok"%string) "u?" 2 [Some (reply (PDict three_pages_2))]
     (snd (_set_session failing_state))).
Proof.
  apply (fetch_data_page_failure 1 "u?" failing_state (snd (_set_session failing_state))
           three_pages_0 [] [reply three_pages_0] (mkResponse 500 None)
           [Some (reply (PDict three_pages_2))]).
  - reflexivity.
  - reflexivity.
  - constructor; [split; reflexivity | constructor].
  - constructor; [|constructor]. unfold continuing, page_data. cbn. eauto.
  - right. cbn. lia.
  - cbn. lia.
Defined.

(** C4, as the code has it.  On a page fetched after the first (here after
    the pages [p0 :: mids], which all said [hasMore]) the loop subscripts
    [data] and [hasMore] without a default: a page without [data] raises
    [KeyError('data')], a page with a list under [data] and no [hasMore]
    raises [KeyError('hasMore')], and the loop ends, with no further
    request, at the first such page whose [hasMore] is there and tests
    false. *)
Theorem fetch_data_later_page fuel url st st1 p0 mids rs r rest d :
  _set_session st = (Return tt, st1) ->
  http_server (world st1) = map Some rs ++ Some r :: rest ->
  Forall2 delivers (p0 :: mids) rs ->
  Forall continuing (p0 :: mids) ->
  delivers (PDict d) r ->
  (List.length mids < fuel)%nat ->
  let after := fetched (bearer (self st1)) url (S (S (List.length mids))) rest st1 in
  (Py.lookup "data" d = None ->
   _fetch_data fuel url st = (Raise (KeyError "data"), after)) /\
  (forall l, Py.lookup "data" d = Some (PList l) -> Py.lookup "hasMore" d = None ->
   _fetch_data fuel url st = (Raise (KeyError "hasMore"), after)) /\
  (forall l v, Py.lookup "data" d = Some (PList l) ->
   Py.lookup "hasMore" d = Some v -> Py.truthy v = false ->
   _fetch_data fuel url st = finish (PList (items (p0 :: mids) ++ l)) (PDict d) after).
Proof.
  intros H0 H Hd Hc Hp Hf after. subst after.
  destruct (set_session_has_session st st1 H0) as [s Hs].
  rewrite <- (bearer_session _ s Hs).
  split; [|split].
  - intros Hn.
    apply (fetch_raises_after fuel url st st1 s p0 mids rs r rest _ H0 Hs H Hd Hc Hf).
    intros k off hm fr st2 Ht Hs2 H2.
    now apply (fetch_loop_missing_data k url off hm _ fr st2 s r rest d).
  - intros l Hl Hn.
    apply (fetch_raises_after fuel url st st1 s p0 mids rs r rest _ H0 Hs H Hd Hc Hf).
    intros k off hm fr st2 Ht Hs2 H2.
    now apply (fetch_loop_missing_has_more k url off hm _ fr st2 s r rest d l).
  - intros l v Hl Hv Ht.
    assert (Hlen : List.length (p0 :: mids) = S (List.length mids)) by reflexivity.
    rewrite <- Hlen.
    apply (fetch_run fuel url st st1 s (p0 :: mids) d l (rs ++ [r]) rest H0 Hs).
    + now rewrite map_app, <- app_assoc.
    + apply Forall2_app; [assumption|]. constructor; [assumption | constructor].
    + assumption.
    + assumption.
    + unfold ends_fetch. rewrite Hv, Ht. reflexivity.
    + cbn [List.length]. lia.
Qed.

Lemma two_page_setting (d : dict) :
  _set_session (two_page_state d) = (Return tt, snd (_set_session (two_page_state d))) /\
  http_server (world (snd (_set_session (two_page_state d)))) =
    map Some [reply three_pages_0] ++ Some (reply (PDict d)) :: [] /\
  Forall2 delivers [three_pages_0] [reply three_pages_0] /\
  Forall continuing [three_pages_0] /\
  delivers (PDict d) (reply (PDict d)).
Proof.
  repeat split.
  - constructor; [split; reflexivity | constructor].
  - constructor; [|constructor]. unfold continuing, page_data. cbn. eauto.
Defined.

Lemma fetch_data_later_page_witness :
  fst (_fetch_data 1 "u?" (two_page_state no_data_page)) = Raise (KeyError "data") /\
  fst (_fetch_data 1 "u?" (two_page_state no_has_more_page)) = Raise (KeyError "hasMore") /\
  fst (_fetch_data 1 "u?" (two_page_state three_pages_2)) =
    Return (PDict [("hasMore", PBool false); ("data", PList [PInt 1; PInt 2; PInt 5]);
                   ("total", PInt 5); ("count", PInt 5)]%string).
Proof.
  assert (Hf : (List.length (@nil pyval) < 1)%nat) by (cbn; lia).
  split; [|split].
  - destruct (two_page_setting no_data_page) as (H0 & H & Hd & Hc & Hp).
    destruct (fetch_data_later_page 1 "u?" _ _ _ _ _ _ _ _ H0 H Hd Hc Hp Hf)
      as [Hdata _].
    rewrite (Hdata eq_refl). reflexivity.
  - destruct (two_page_setting no_has_more_page) as (H0 & H & Hd & Hc & Hp).
    destruct (fetch_data_later_page 1 "u?" _ _ _ _ _ _ _ _ H0 H Hd Hc Hp Hf)
      as (_ & Hmore & _).
    rewrite (Hmore [PInt 3; PInt 4] eq_refl eq_refl). reflexivity.
  - destruct (two_page_setting three_pages_2) as (H0 & H & Hd & Hc & Hp).
    destruct (fetch_data_later_page 1 "u?" _ _ _ _ _ _ _ _ H0 H Hd Hc Hp Hf)
      as (_ & _ & Hend).
    rewrite (Hend [PInt 5] (PBool false) eq_refl eq_refl eq_refl). reflexivity.
Defined.

(** C4 as stated fails: a second page without [hasMore] does not end the
    loop but the fetch, and a second page without [data] contributes no
    empty list but an error. *)
Lemma fetch_data_later_page_counterexample :
  fst (_fetch_data 5 "u?" (two_page_state no_has_more_page)) = Raise (KeyError "hasMore") /\
  fst (_fetch_data 5 "u?" (two_page_state no_data_page)) = Raise (KeyError "data").
Proof. split; reflexivity. Qed.

(** ** A single object *)

(** C7.  When the first page has no [data] field and is the only page (its
    [hasMore] is absent or tests false), exactly one GET is made, at offset
    0, and the decoded page is returned as it is. *)
Theorem fetch_data_single_object fuel url st st1 r0 rest d0 :
  _set_session st = (Return tt, st1) ->
  http_server (world st1) = Some r0 :: rest ->
  delivers (PDict d0) r0 ->
  Py.lookup "data" d0 = None ->
  ends_fetch [] d0 = true ->
  _fetch_data fuel url st =
  (Return (PDict d0),
   mkState (self st1)
     (after_requests [ReqGet (bearer (self st1)) (url ++ "&limit=100&offset=0")%string]
        rest (world st1))).
Proof.
  intros H0 H Hp Hd He.
  destruct (set_session_has_session st st1 H0) as [s Hs].
  rewrite <- (bearer_session _ s Hs).
  rewrite (fetch_first_page fuel url st st1 s r0 rest d0 H0 Hs H Hp).
  unfold bind. rewrite fetch_loop_exit.
  - unfold first_data. rewrite Hd. reflexivity.
  - unfold first_has_more. unfold ends_fetch in He.
    destruct (Py.lookup "hasMore" d0); [|reflexivity].
    now apply negb_true_iff in He.
Qed.

Lemma fetch_data_single_object_witness :
  _fetch_data 0 "u?" (one_page_state location_object) =
  (Return (PDict location_object),
   mkState (self (snd (_set_session (one_page_state location_object))))
     (after_requests [ReqGet (Some "tok"%string) "u?&limit=100&offset=0"] []
        (world (snd (_set_session (one_page_state location_object)))))).
Proof.
  apply (fetch_data_single_object 0 "u?" (one_page_state location_object)
           (snd (_set_session (one_page_state location_object)))
           (reply (PDict location_object)) [] location_object).
  - reflexivity.
  - reflexivity.
  - split; reflexivity.
  - reflexivity.
  - reflexivity.
Defined.

(** ** A failing token request *)

(** C6, as the code has it.  When the token is absent or expired and the
    token request fails, [_set_session] raises the error after exactly one
    token request and no token is installed; the session attribute,
    assigned before the request, is a new token-less [OAuth2Session], so
    that a token held before is gone, and the admin session is untouched. *)
Theorem set_session_fetch_failure (st : State) :
  (installed (self st) = None \/
   exists t, installed (self st) = Some t /\ expires_at t <= now (world st)) ->
  (token_endpoint (world st) = [] \/
   exists rest, token_endpoint (world st) = None :: rest) ->
  fst (_set_session st) = Raise OAuth2Error /\
  session (self (snd (_set_session st))) =
    Some (mkSession (next_id (world st))
            (mkClient (client_id (self st)) (scope (self st))) None) /\
  installed (self (snd (_set_session st))) = None /\
  admin_session (self (snd (_set_session st))) = admin_session (self st) /\
  trace (world (snd (_set_session st))) =
    trace (world st) ++
    [ReqToken (token_url (self st)) (client_id (self st))
       (client_secret (self st)) (scope (self st))].
Proof.
  intros H He. apply installed_invalid in H. rewrite (set_session_refresh st H).
  destruct He as [-> | [rest ->]]; repeat split.
Qed.

Lemma set_session_fetch_failure_witness :
  fst (_set_session expired_state) = Raise OAuth2Error /\
  session (self (snd (_set_session expired_state))) =
    Some (mkSession 1 (mkClient "id" "OnSchedAPI") None) /\
  installed (self (snd (_set_session expired_state))) = None /\
  admin_session (self (snd (_set_session expired_state))) = None /\
  trace (world (snd (_set_session expired_state))) =
    [ReqToken SANDBOX_TOKEN_URL "id" "secret" "OnSchedAPI"].
Proof.
  apply (set_session_fetch_failure expired_state).
  - right. exists (mkToken "old" 500). split; [reflexivity | cbn; lia].
  - right. exists []. reflexivity.
Defined.

(** C6 as stated fails: the failed attempt does not leave the session as it
    was.  The object held before, with its expired token, is replaced by
    another object without a token. *)
Lemma set_session_fetch_failure_counterexample :
  fst (_set_session expired_state) = Raise OAuth2Error /\
  installed (self expired_state) = Some (mkToken "old" 500) /\
  installed (self (snd (_set_session expired_state))) = None /\
  option_map sid (session (self expired_state)) = Some 0%nat /\
  option_map sid (session (self (snd (_set_session expired_state)))) = Some 1%nat /\
  session (self (snd (_set_session expired_state))) <> session (self expired_state).
Proof. repeat split. discriminate. Qed.

(** ** The environment *)

Lemma eq_str_spec (v : pyval) (k : string) : Py.eq_str v k = true <-> v = PStr k.
Proof.
  unfold Py.eq_str, Py.is_str. split.
  - destruct v; try discriminate. intros H. apply String.eqb_eq in H. now subst.
  - intros ->. apply String.eqb_refl.
Qed.

Lemma set_session_urls (st : State) : same_urls (self st) (self (snd (_set_session st))).
Proof.
  destruct (token_valid (session (self st)) (now (world st))) eqn:V.
  - rewrite (set_session_valid st V). repeat split.
  - rewrite (set_session_refresh st V).
    destruct (token_endpoint (world st)) as [|[t|] rest]; repeat split.
Qed.

Lemma set_setup_session_urls (st : State) :
  same_urls (self st) (self (snd (_set_setup_session st))).
Proof.
  unfold _set_setup_session, bind, unix_timestamp_now, get_self.
  destruct (token_valid (admin_session (self st)) (now (world st))).
  - repeat split.
  - cbn. destruct (token_endpoint (world st)) as [|[t|] rest]; cbn; repeat split.
Qed.

Lemma init_urls cid sec scp env (w : World) :
  same_urls (init_attributes cid sec scp env) (self (snd (__init__ cid sec scp env w))).
Proof.
  unfold __init__, bind.
  pose proof (set_session_urls (mkState (init_attributes cid sec scp env) w)) as H1.
  destruct (_set_session (mkState (init_attributes cid sec scp env) w)) as [[[]|e|] st1];
    cbn [snd self] in *; trivial.
  pose proof (set_setup_session_urls st1) as H2.
  destruct H1 as (a & b & c), H2 as (a' & b' & c').
  repeat split; congruence.
Qed.

(** C8.  Whatever the [environment] argument is, the constructed object has
    the production token URL and the production consumer and setup API
    bases when it is the string ['live'], and the sandbox token URL and
    sandbox API bases for every other value. *)
Theorem init_environment cid sec scp (env : pyval) (w : World) :
  let o := self (snd (__init__ cid sec scp env w)) in
  (env = PStr "live" ->
   token_url o = "https://identity.onsched.com/connect/token"%string /\
   consumer_api o = "https://api.onsched.com/consumer/v1"%string /\
   setup_api o = "https://api.onsched.com/setup/v1"%string) /\
  (env <> PStr "live" ->
   token_url o = "https://sandbox-identity.onsched.com/connect/token"%string /\
   consumer_api o = "https://sandbox-api.onsched.com/consumer/v1"%string /\
   setup_api o = "https://sandbox-api.onsched.com/setup/v1"%string).
Proof.
  intros o. subst o. destruct (init_urls cid sec scp env w) as (-> & -> & ->).
  unfold init_attributes. split.
  - intros ->. repeat split.
  - intros Hn. destruct (Py.eq_str env "live") eqn:E.
    + apply eq_str_spec in E. contradiction.
    + repeat split.
Qed.

Lemma init_environment_witness :
  token_url (self (snd (__init__ "id" "secret" "OnSchedAPI" (PStr "LIVE") demo_world))) =
    "https://sandbox-identity.onsched.com/connect/token"%string /\
  token_url (self (snd (__init__ "id" "secret" "OnSchedAPI" (PStr "live") demo_world))) =
    "https://identity.onsched.com/connect/token"%string.
Proof.
  split.
  - apply (init_environment "id" "secret" "OnSchedAPI" (PStr "LIVE") demo_world).
    discriminate.
  - apply (init_environment "id" "secret" "OnSchedAPI" (PStr "live") demo_world).
    reflexivity.
Defined.

(** ** [availability] with a list of resource ids *)

(** C9.  With [start_date] and [end_date] each a [date] or a [str] and a
    non-empty list as [resource_ids], [availability] raises
    [AttributeError] for [join], the method it calls on the list, and
    leaves object and world as they were: no request was made. *)
Theorem availability_resource_ids (urlencode : dict -> string) fuel service_id
    start_date end_date start_time end_time location_id resource_id
    resource_group_id (id0 : pyval) (ids : list pyval) duration tz_offset
    day_availability first_day_available (st : State) :
  date_or_str start_date = true ->
  date_or_str end_date = true ->
  availability urlencode fuel service_id start_date end_date start_time end_time
    location_id resource_id resource_group_id (PList (id0 :: ids)) duration
    tz_offset day_availability first_day_available st =
  (Raise (AttributeError "join"), st).
Proof.
  intros Hs He.
  destruct start_date; try discriminate Hs; destruct end_date; try discriminate He;
    reflexivity.
Qed.

Lemma availability_resource_ids_witness :
  availability (fun _ => EmptyString) 3 "svc" (PDate (mkDate 2024 2 29))
    (PStr "2024-03-01") (PInt 0) (PInt 0) (PStr "") (PStr "") (PStr "")
    (PList [PStr "r1"; PStr "r2"]) (PInt 0) (PInt 0) (PInt 0) (PBool false)
    demo_state =
  (Raise (AttributeError "join"), demo_state).
Proof.
  apply (availability_resource_ids (fun _ => EmptyString) 3 "svc"
           (PDate (mkDate 2024 2 29)) (PStr "2024-03-01")); reflexivity.
Defined.

(** ** [create_service] with a fee *)

Lemma create_service_payload_has_no_fee (name description duration location_id
    service_group_id public : pyval) (options : dict) :
  Py.lookup "fee"
    (let payload : dict := [("name", name); ("description", description)]%string in
     let payload := set_if location_id "locationId" payload in
     let payload := set_if duration "duration" payload in
     let payload := set_if service_group_id "serviceGroupId" payload in
     let payload :=
       if Py.truthy public then Py.set "public" (PStr "true") payload else payload in
     if Py.truthy (PDict options) then Py.set "options" (PDict options) payload
     else payload) = None.
Proof.
  unfold set_if.
  destruct (Py.truthy location_id), (Py.truthy duration),
    (Py.truthy service_group_id), (Py.truthy public), (Py.truthy (PDict options));
    reflexivity.
Qed.

(** C10.  When one of [fee_amount], [fee_taxable],
    [cancellation_fee_amount], [cancellation_fee_taxable], [nonrefundable]
    tests true, [create_service] raises [KeyError('fee')], from the lookup
    [payload['fee']], and leaves object and world as they were: no POST and
    no other request was made. *)
Theorem create_service_fee (name description duration location_id
    service_group_id public default_service duration_select duration_interval
    duration_min duration_max padding consumer_padding fee_amount fee_taxable
    cancellation_fee_amount cancellation_fee_taxable nonrefundable : pyval)
    (st : State) :
  any_truthy [fee_amount; fee_taxable; cancellation_fee_amount;
              cancellation_fee_taxable; nonrefundable] = true ->
  create_service name description duration location_id service_group_id public
    default_service duration_select duration_interval duration_min duration_max
    padding consumer_padding fee_amount fee_taxable cancellation_fee_amount
    cancellation_fee_taxable nonrefundable st =
  (Raise (KeyError "fee"), st).
Proof.
  intros H. unfold create_service. rewrite H.
  unfold bind at 1. unfold get_self at 1. cbv zeta.
  cbn [Py.set Py.truthy String.eqb Ascii.eqb Bool.eqb].
  unfold bind at 1. cbn [Py.getitem].
  match goal with
  | |- context [Py.lookup "fee" ?p] =>
      replace (Py.lookup "fee" p) with (@None pyval)
  end.
  - reflexivity.
  - symmetry. apply create_service_payload_has_no_fee.
Qed.

Lemma create_service_fee_witness :
  create_service (PStr "Haircut") (PStr "Wash and cut") (PInt 30) (PStr "loc-1")
    (PStr "") (PBool true) (PBool false) (PBool false) (PInt 0) (PInt 0) (PInt 0)
    (PInt 0) (PBool false) (PInt 25) (PBool false) (PInt 0) (PBool false)
    (PBool false) demo_state =
  (Raise (KeyError "fee"), demo_state).
Proof.
  apply (create_service_fee (PStr "Haircut") (PStr "Wash and cut") (PInt 30)
           (PStr "loc-1") (PStr "") (PBool true) (PBool false) (PBool false)
           (PInt 0) (PInt 0) (PInt 0) (PInt 0) (PBool false) (PInt 25)).
  reflexivity.
Defined.

(** ** The setup API does as the consumer API *)

Lemma swap_sessions_involutive (o : OnSchedService) :
  swap_sessions (swap_sessions o) = o.
Proof. now destruct o. Qed.

Lemma swap_state_involutive (st : State) : swap_state (swap_state st) = st.
Proof.
  destruct st as [o w]. unfold swap_state, on_self. cbn.
  now rewrite swap_sessions_involutive.
Qed.

Lemma twin_bind {A B} (m m' : M A) (k k' : A -> M B) :
  twin m m' -> (forall a, twin (k a) (k' a)) -> twin (bind m k) (bind m' k').
Proof.
  intros Hm Hk st. unfold bind. rewrite Hm. unfold swap_result.
  destruct (m (swap_state st)) as [[a|e|] st1]; cbn [fst snd]; trivial.
  rewrite Hk, swap_state_involutive. reflexivity.
Qed.

Lemma twin_ret {A} (a : A) : twin (ret a) (ret a).
Proof. intros st. unfold ret, swap_result. cbn. now rewrite swap_state_involutive. Qed.

Lemma twin_raise {A} (e : exn) : twin (@raise A e) (raise e).
Proof. intros st. unfold raise, swap_result. cbn. now rewrite swap_state_involutive. Qed.

Lemma twin_out_of_fuel {A} : twin (@out_of_fuel A) out_of_fuel.
Proof.
  intros st. unfold out_of_fuel, swap_result. cbn. now rewrite swap_state_involutive.
Qed.

Lemma twin_lift {A} (r : exn + A) : twin (lift r) (lift r).
Proof. destruct r; [apply twin_raise | apply twin_ret]. Qed.

Lemma twin_raise_for_status (r : Response) :
  twin (raise_for_status r) (raise_for_status r).
Proof.
  unfold raise_for_status. destruct (is_success (status_code r));
    [apply twin_ret | apply twin_raise].
Qed.

Lemma twin_json_loads (r : Response) : twin (json_loads r) (json_loads r).
Proof. unfold json_loads. destruct (decoded r); [apply twin_ret | apply twin_raise]. Qed.

Lemma twin_finish (data page : pyval) : twin (finish data page) (finish data page).
Proof.
  unfold finish. destruct (Py.truthy data); [|apply twin_ret].
  apply twin_bind; [apply twin_lift|]. intros total.
  apply twin_bind; [apply twin_lift|]. intros r.
  apply twin_bind; [apply twin_lift|]. intros r'. apply twin_ret.
Qed.

Lemma twin_exchange (q : Request) : twin (exchange q) (exchange q).
Proof.
  intros st. unfold exchange, swap_result. cbn [swap_state on_self world self].
  destruct (http_server (log q (world st))) as [|[r|] rest]; cbn [fst snd];
    unfold swap_state, on_self; cbn [self world];
    now rewrite swap_sessions_involutive.
Qed.

Lemma twin_get (url : string) : twin (session_get url) (admin_session_get url).
Proof.
  intros st. unfold session_get, admin_session_get.
  cbn [swap_state on_self self swap_sessions session].
  destruct (admin_session (self st)) as [s|].
  - apply twin_exchange.
  - unfold swap_result. cbn [fst snd]. now rewrite swap_state_involutive.
Qed.

Lemma twin_post (url : string) (data : pyval) :
  twin (session_post url data) (admin_session_post url data).
Proof.
  intros st. unfold session_post, admin_session_post.
  cbn [swap_state on_self self swap_sessions session].
  destruct (admin_session (self st)) as [s|].
  - apply twin_exchange.
  - unfold swap_result. cbn [fst snd]. now rewrite swap_state_involutive.
Qed.

Lemma twin_set_session : twin _set_session _set_setup_session.
Proof.
  intros [o w]. destruct o as [cid sec scp turl capi sapi ses adm].
  unfold _set_setup_session, _set_session, bind, unix_timestamp_now, get_self,
    swap_result, swap_state, on_self.
  cbn [self world session admin_session swap_sessions].
  destruct (token_valid adm (now w)); [reflexivity|].
  cbn. destruct (token_endpoint w) as [|[t|] rest]; reflexivity.
Qed.

Lemma twin_loop url : forall fuel off hm data fr,
  twin (fetch_loop fuel url off hm data fr) (fetch_setup_loop fuel url off hm data fr).
Proof.
  induction fuel as [|fuel IH]; intros off hm data fr;
    cbn [fetch_loop fetch_setup_loop]; destruct (Py.truthy hm);
    try apply twin_ret; try apply twin_out_of_fuel.
  apply twin_bind; [apply twin_get|]. intros r.
  apply twin_bind; [apply twin_raise_for_status|]. intros _.
  apply twin_bind; [apply twin_json_loads|]. intros p.
  apply twin_bind; [apply twin_lift|]. intros d.
  apply twin_bind; [apply twin_lift|]. intros data'.
  apply twin_bind; [apply twin_lift|]. intros hm'.
  apply IH.
Qed.

Lemma twin_fetch_data fuel url : twin (_fetch_data fuel url) (_fetch_setup_data fuel url).
Proof.
  unfold _fetch_data, _fetch_setup_data.
  apply twin_bind; [apply twin_set_session|]. intros _.
  apply twin_bind; [apply twin_get|]. intros r.
  apply twin_bind; [apply twin_raise_for_status|]. intros _.
  apply twin_bind; [apply twin_json_loads|]. intros p.
  apply twin_bind; [apply twin_lift|]. intros b1.
  apply twin_bind; [destruct b1; [apply twin_lift | apply twin_ret]|]. intros hm.
  apply twin_bind; [apply twin_lift|]. intros b2.
  apply twin_bind; [destruct b2; [apply twin_lift | apply twin_ret]|]. intros data.
  apply twin_bind; [apply twin_loop|]. intros x. apply twin_finish.
Qed.

Lemma twin_post_data url data : twin (_post_data url data) (_post_setup_data url data).
Proof.
  unfold _post_data, _post_setup_data.
  apply twin_bind; [apply twin_set_session|]. intros _.
  apply twin_bind; [apply twin_post|]. intros r.
  apply twin_bind; [apply twin_raise_for_status|]. intros _.
  apply twin_json_loads.
Qed.

(** ** What a fetch does to the object and the world, whatever the server says *)

Lemma state_eta (st : State) :
  mkState (self st) (after_requests [] (http_server (world st)) (world st)) = st.
Proof. rewrite after_requests_nil. now destruct st. Qed.

Lemma loop_trail_none b url offset bound (st : State) :
  loop_trail b url offset bound st st.
Proof.
  exists 0%nat, [], (http_server (world st)). cbn [page_requests].
  rewrite state_eta. repeat split; cbn; lia.
Qed.

Lemma loop_trail_one b url offset bound (st : State) used rest :
  http_server (world st) = used ++ rest ->
  (List.length used <= 1)%nat ->
  loop_trail b url offset (S bound) st
    (mkState (self st) (after_requests [ReqGet b (page_url url offset)] rest (world st))).
Proof.
  intros H Hl. exists 1%nat, used, rest. cbn [page_requests]. repeat split; trivial; lia.
Qed.

Lemma loop_trail_more b url offset bound (st st' : State) r rest0 :
  http_server (world st) = Some r :: rest0 ->
  loop_trail b url (offset + 100) bound
    (mkState (self st) (after_requests [ReqGet b (page_url url offset)] rest0 (world st)))
    st' ->
  loop_trail b url offset (S bound) st st'.
Proof.
  intros H (n & used & rest & -> & Hu & Hl & Hn). cbn [self world] in *.
  exists (S n), (Some r :: used), rest. rewrite after_requests_twice.
  cbn [page_requests app List.length]. cbn in Hu. rewrite H, Hu.
  repeat split; trivial; lia.
Qed.

(** The state after one GET, in each of the three things the scripted
    server can do. *)
Lemma session_get_state url (st : State) s :
  session (self st) = Some s ->
  (exists used rest,
     http_server (world st) = used ++ rest /\ (List.length used <= 1)%nat /\
     (exists e, fst (session_get url st) = Raise e) /\
     snd (session_get url st) =
       mkState (self st) (after_requests [ReqGet (bearer_of s) url] rest (world st))) \/
  (exists r rest,
     http_server (world st) = Some r :: rest /\
     session_get url st =
       (Return r,
        mkState (self st) (after_requests [ReqGet (bearer_of s) url] rest (world st)))).
Proof.
  intros Hs. destruct (http_server (world st)) as [|[r|] rest] eqn:E.
  - left. exists [], []. unfold session_get, exchange. rewrite Hs.
    cbn [world log http_server]. rewrite E. cbn [fst snd self world].
    repeat split; eauto. unfold after_requests, log. cbn. now rewrite E.
  - right. exists r, rest. split; [reflexivity|].
    now apply session_get_answer.
  - left. exists [None], rest. unfold session_get, exchange. rewrite Hs.
    cbn [world log http_server]. rewrite E. cbn [fst snd self world].
    repeat split; eauto.
Qed.

Lemma fetch_loop_trail url : forall fuel off hm data fr st s,
  session (self st) = Some s ->
  loop_trail (bearer_of s) url (off + 100) fuel st
    (snd (fetch_loop fuel url off hm data fr st)).
Proof.
  induction fuel as [|fuel IH]; intros off hm data fr st s Hs.
  - cbn [fetch_loop]. destruct (Py.truthy hm); apply loop_trail_none.
  - cbn [fetch_loop]. destruct (Py.truthy hm); [|apply loop_trail_none].
    unfold bind at 1.
    destruct (session_get_state (page_url url (off + 100)) st s Hs)
      as [(used & rest & Hu & Hl & [e He] & Hst) | (r & rest & Hu & Hg)].
    + destruct (session_get (page_url url (off + 100)) st) as [[r|e'|] st1];
        cbn [fst snd] in *; try discriminate; subst st1;
        now apply (loop_trail_one _ _ _ _ _ used rest).
    + rewrite Hg.
      assert (Hone : loop_trail (bearer_of s) url (off + 100) (S fuel) st
                (mkState (self st)
                   (after_requests [ReqGet (bearer_of s) (page_url url (off + 100))]
                      rest (world st)))).
      { apply (loop_trail_one _ _ _ _ _ [Some r] rest); [assumption | cbn; lia]. }
      unfold bind at 1. unfold raise_for_status.
      destruct (is_success (status_code r)); [|exact Hone].
      unfold ret at 1. unfold bind at 1. unfold json_loads.
      destruct (decoded r) as [p|]; [|exact Hone].
      unfold ret at 1. unfold bind at 1.
      destruct (Py.getitem p "data") as [e|d]; [exact Hone|].
      unfold lift at 1, ret at 1. unfold bind at 1.
      destruct (Py.iadd data d) as [e|data']; [exact Hone|].
      unfold lift at 1, ret at 1. unfold bind at 1.
      destruct (Py.getitem p "hasMore") as [e|hm']; [exact Hone|].
      unfold lift at 1, ret at 1.
      apply (loop_trail_more _ _ _ _ _ _ r rest Hu).
      apply IH. exact Hs.
Qed.

Lemma finish_state data page (st : State) : snd (finish data page st) = st.
Proof.
  unfold finish. destruct (Py.truthy data); [|reflexivity].
  unfold bind at 1. destruct (Py.getitem page "total") as [e|total]; [reflexivity|].
  unfold lift at 1, ret at 1. unfold bind at 1.
  destruct (Py.setitem page "count" total) as [e|r]; [reflexivity|].
  unfold lift at 1, ret at 1. unfold bind at 1.
  destruct (Py.setitem r "data" data) as [e|r']; reflexivity.
Qed.

Lemma fetch_data_trail fuel url (st : State) :
  loop_trail (bearer (self (snd (_set_session st)))) url 0 (S fuel)
    (snd (_set_session st)) (snd (_fetch_data fuel url st)).
Proof.
  unfold _fetch_data. unfold bind at 1.
  destruct (_set_session st) as [[[]|e|] st1] eqn:E0; cbn [snd];
    try apply loop_trail_none.
  destruct (set_session_has_session st st1 E0) as [s Hs].
  rewrite <- (bearer_session _ s Hs).
  unfold bind at 1.
  destruct (session_get_state (page_url url 0) st1 s Hs)
    as [(used & rest & Hu & Hl & [e He] & Hst) | (r & rest & Hu & Hg)].
  - destruct (session_get (page_url url 0) st1) as [[r|e'|] st2];
      cbn [fst snd] in *; try discriminate; subst st2;
      now apply (loop_trail_one _ _ _ _ _ used rest).
  - rewrite Hg.
    assert (Hone : loop_trail (bearer_of s) url 0 (S fuel) st1
              (mkState (self st1)
                 (after_requests [ReqGet (bearer_of s) (page_url url 0)]
                    rest (world st1)))).
    { apply (loop_trail_one _ _ _ _ _ [Some r] rest); [assumption | cbn; lia]. }
    unfold bind at 1. unfold raise_for_status.
    destruct (is_success (status_code r)); [|exact Hone].
    unfold ret at 1. unfold bind at 1. unfold json_loads.
    destruct (decoded r) as [p|]; [|exact Hone].
    unfold ret at 1. unfold bind at 1.
    destruct (Py.contains "hasMore" p) as [e|b1]; [exact Hone|].
    unfold lift at 1, ret at 1. unfold bind at 1.
    assert (Hloop : forall hm data,
              loop_trail (bearer_of s) url 0 (S fuel) st1
                (snd ((x <- fetch_loop fuel url 0 hm data p ;; finish (fst x) (snd x))
                        (mkState (self st1)
                           (after_requests [ReqGet (bearer_of s) (page_url url 0)]
                              rest (world st1)))))).
    { intros hm data. apply (loop_trail_more _ _ _ _ _ _ r rest Hu).
      unfold bind.
      pose proof (fetch_loop_trail url fuel 0 hm data p
                    (mkState (self st1)
                       (after_requests [ReqGet (bearer_of s) (page_url url 0)]
                          rest (world st1))) s Hs) as Ht.
      destruct (fetch_loop fuel url 0 hm data p _) as [[x|e|] st3]; cbn [snd] in *;
        trivial.
      now rewrite finish_state. }
    assert (Hdata : forall hm,
              loop_trail (bearer_of s) url 0 (S fuel) st1
                (snd ((has_key <- lift (Py.contains "data" p) ;;
                       data <- (if has_key : bool then lift (Py.getitem p "data")
                                else ret PNone) ;;
                       x <- fetch_loop fuel url 0 hm data p ;; finish (fst x) (snd x))
                        (mkState (self st1)
                           (after_requests [ReqGet (bearer_of s) (page_url url 0)]
                              rest (world st1)))))).
    { intros hm. unfold bind at 1.
      destruct (Py.contains "data" p) as [e|b2]; [exact Hone|].
      unfold lift at 1, ret at 1. unfold bind at 1. destruct b2.
      - destruct (Py.getitem p "data") as [e|d]; [exact Hone|]. apply Hloop.
      - apply Hloop. }
    destruct b1.
    + destruct (Py.getitem p "hasMore") as [e|hm]; [exact Hone|]. apply Hdata.
    + apply Hdata.
Qed.

(** Whatever the token endpoint and the server do, a fetch does nothing but
    this: after the session check it issues GETs of the page URLs at offsets
    0, 100, 200, ... in this order, all with the bearer token the session
    check left, each consuming at most one scripted answer, at most one more
    than the loop has iterations; the object stays as the session check left
    it and no further token request is made. *)
Theorem fetch_data_requests fuel url (st : State) :
  exists n used rest,
    snd (_fetch_data fuel url st) =
      fetched (bearer (self (snd (_set_session st)))) url n rest
        (snd (_set_session st)) /\
    http_server (world (snd (_set_session st))) = used ++ rest /\
    (List.length used <= n)%nat /\ (n <= S fuel)%nat.
Proof. exact (fetch_data_trail fuel url st). Qed.

(** ** The two sessions do not meet *)

Lemma set_session_keeps_admin (st : State) :
  admin_session (self (snd (_set_session st))) = admin_session (self st).
Proof.
  destruct (token_valid (session (self st)) (now (world st))) eqn:V.
  - now rewrite (set_session_valid st V).
  - rewrite (set_session_refresh st V).
    destruct (token_endpoint (world st)) as [|[t|] rest]; reflexivity.
Qed.

Lemma fetch_data_self fuel url (st : State) :
  self (snd (_fetch_data fuel url st)) = self (snd (_set_session st)).
Proof.
  destruct (fetch_data_trail fuel url st) as (n & used & rest & -> & _). reflexivity.
Qed.

Lemma exchange_self (q : Request) (st : State) : self (snd (exchange q st)) = self st.
Proof.
  unfold exchange. destruct (http_server (log q (world st))) as [|[r|] rest];
    reflexivity.
Qed.

Lemma post_data_self url data (st : State) :
  self (snd (_post_data url data st)) = self (snd (_set_session st)).
Proof.
  unfold _post_data. unfold bind at 1.
  destruct (_set_session st) as [[[]|e|] st1]; cbn [snd]; trivial.
  unfold bind at 1. unfold session_post.
  destruct (session (self st1)) as [s|]; [|reflexivity].
  pose proof (exchange_self (ReqPost (bearer_of s) url data) st1) as He.
  destruct (exchange (ReqPost (bearer_of s) url data) st1) as [[r|e|] st2];
    cbn [snd] in *; trivial.
  unfold bind at 1. unfold raise_for_status.
  destruct (is_success (status_code r)); [|exact He].
  unfold ret at 1. unfold json_loads. destruct (decoded r); exact He.
Qed.

Lemma swap_result_session {A} (r : outcome A * State) :
  session (self (snd (swap_result r))) = admin_session (self (snd r)).
Proof. reflexivity. Qed.

(** Calls on one API never touch the other API's session: a consumer fetch
    or post leaves [admin_session] as it was, a setup fetch or post leaves
    [session] as it was, whatever the token endpoint and the server do. *)
Theorem sessions_are_independent fuel url data (st : State) :
  admin_session (self (snd (_fetch_data fuel url st))) = admin_session (self st) /\
  admin_session (self (snd (_post_data url data st))) = admin_session (self st) /\
  session (self (snd (_fetch_setup_data fuel url st))) = session (self st) /\
  session (self (snd (_post_setup_data url data st))) = session (self st).
Proof.
  repeat split.
  - rewrite fetch_data_self. apply set_session_keeps_admin.
  - rewrite post_data_self. apply set_session_keeps_admin.
  - rewrite (twin_fetch_data fuel url st), swap_result_session, fetch_data_self.
    apply set_session_keeps_admin.
  - rewrite (twin_post_data url data st), swap_result_session, post_data_self.
    apply set_session_keeps_admin.
Qed.

(** [_set_setup_session] is [_set_session] with the roles of [session] and
    [admin_session] exchanged: same test, same token URL, same credentials
    and scope, same effects. *)
Theorem set_setup_session_as_set_session (st : State) :
  _set_setup_session st = swap_result (_set_session (swap_state st)).
Proof. apply twin_set_session. Qed.

(** [_fetch_setup_data] is [_fetch_data] with the roles of [session] and
    [admin_session] exchanged, for every fuel, URL, object and world: the
    setup fetch pages, accumulates and fails exactly as the consumer fetch
    does. *)
Theorem fetch_setup_data_as_fetch_data fuel url (st : State) :
  _fetch_setup_data fuel url st = swap_result (_fetch_data fuel url (swap_state st)).
Proof. apply twin_fetch_data. Qed.

(** [_post_setup_data] is [_post_data] with the roles of [session] and
    [admin_session] exchanged. *)
Theorem post_setup_data_as_post_data url data (st : State) :
  _post_setup_data url data st = swap_result (_post_data url data (swap_state st)).
Proof. apply twin_post_data. Qed.

(** ** Requests and tokens *)

Lemma fetch_data_session_raises fuel url (st : State) e :
  fst (_set_session st) = Raise e ->
  _fetch_data fuel url st = (Raise e, snd (_set_session st)).
Proof.
  unfold _fetch_data. unfold bind at 1.
  destruct (_set_session st) as [[[]|e'|] st1]; cbn [fst snd]; congruence.
Qed.

Lemma post_data_session_raises url data (st : State) e :
  fst (_set_session st) = Raise e ->
  _post_data url data st = (Raise e, snd (_set_session st)).
Proof.
  unfold _post_data. unfold bind at 1.
  destruct (_set_session st) as [[[]|e'|] st1]; cbn [fst snd]; congruence.
Qed.

(** With the token absent or expired and a token request that fails, a
    fetch and a post raise the token error and send nothing to the resource
    API: the only request made is the token request and the server's
    answers are all still there. *)
Theorem no_request_without_token fuel url data (st : State) :
  (installed (self st) = None \/
   exists t, installed (self st) = Some t /\ expires_at t <= now (world st)) ->
  (token_endpoint (world st) = [] \/
   exists rest, token_endpoint (world st) = None :: rest) ->
  fst (_fetch_data fuel url st) = Raise OAuth2Error /\
  fst (_post_data url data st) = Raise OAuth2Error /\
  snd (_fetch_data fuel url st) = snd (_post_data url data st) /\
  http_server (world (snd (_fetch_data fuel url st))) = http_server (world st) /\
  trace (world (snd (_fetch_data fuel url st))) =
    trace (world st) ++
    [ReqToken (token_url (self st)) (client_id (self st))
       (client_secret (self st)) (scope (self st))].
Proof.
  intros H He. apply installed_invalid in H.
  assert (Hs : fst (_set_session st) = Raise OAuth2Error).
  { rewrite (set_session_refresh st H). destruct He as [-> | [rest ->]]; reflexivity. }
  rewrite (fetch_data_session_raises fuel url st _ Hs).
  rewrite (post_data_session_raises url data st _ Hs). cbn [fst snd].
  rewrite (set_session_refresh st H).
  destruct He as [-> | [rest ->]]; repeat split.
Qed.

Lemma no_request_without_token_witness :
  fst (_fetch_data 3 "u?" expired_state) = Raise OAuth2Error /\
  fst (_post_data "u" PNone expired_state) = Raise OAuth2Error /\
  snd (_fetch_data 3 "u?" expired_state) = snd (_post_data "u" PNone expired_state) /\
  http_server (world (snd (_fetch_data 3 "u?" expired_state))) = [] /\
  trace (world (snd (_fetch_data 3 "u?" expired_state))) =
    [ReqToken SANDBOX_TOKEN_URL "id" "secret" "OnSchedAPI"].
Proof.
  apply (no_request_without_token 3 "u?" PNone expired_state).
  - right. exists (mkToken "old" 500). split; [reflexivity | cbn; lia].
  - right. exists []. reflexivity.
Defined.

(** The first answer is not a page: a status outside 2xx raises
    [HTTPError] with that status (a 401 as any other: no token is requested
    again and nothing is retried), a 2xx body that is not JSON raises
    [JSONDecodeError]; either way exactly one GET was made. *)
Theorem fetch_data_first_answer_rejected fuel url st st1 r rest :
  _set_session st = (Return tt, st1) ->
  http_server (world st1) = Some r :: rest ->
  is_success (status_code r) = false \/ decoded r = None ->
  _fetch_data fuel url st =
  (Raise (if is_success (status_code r) then JSONDecodeError
          else HTTPError (status_code r)),
   fetched (bearer (self st1)) url 1 rest st1).
Proof.
  intros H0 H Hr.
  destruct (set_session_has_session st st1 H0) as [s Hs].
  rewrite <- (bearer_session _ s Hs).
  unfold _fetch_data. unfold bind at 1. rewrite H0.
  unfold bind at 1. rewrite (session_get_answer _ st1 s r rest Hs H).
  unfold bind at 1. unfold raise_for_status.
  destruct (is_success (status_code r)); [|reflexivity].
  destruct Hr as [Hr|Hr]; [discriminate|].
  unfold ret at 1. unfold bind at 1. unfold json_loads. now rewrite Hr.
Qed.

Lemma fetch_data_first_answer_rejected_witness :
  _fetch_data 3 "u?" (valid_state [Some (mkResponse 401 None); Some (reply three_pages_0)]) =
  (Raise (HTTPError 401),
   mkState valid_service
     (mkWorld 1000 [] [Some (reply three_pages_0)]
        [ReqGet (Some "tok"%string) "u?&limit=100&offset=0"] 1)).
Proof.
  apply (fetch_data_first_answer_rejected 3 "u?"
           (valid_state [Some (mkResponse 401 None); Some (reply three_pages_0)])
           (valid_state [Some (mkResponse 401 None); Some (reply three_pages_0)])
           (mkResponse 401 None) [Some (reply three_pages_0)]).
  - reflexivity.
  - reflexivity.
  - left. reflexivity.
Defined.

(** A fetch that reaches the loop head after the pages [p0 :: mids] and
    meets there, whatever the server does next, a step that raises [e]. *)
Lemma fetch_raises_next fuel url st st1 s p0 mids rs next rest e :
  _set_session st = (Return tt, st1) ->
  session (self st1) = Some s ->
  http_server (world st1) = map Some rs ++ next ->
  Forall2 delivers (p0 :: mids) rs ->
  Forall continuing (p0 :: mids) ->
  (List.length mids < fuel)%nat ->
  (forall k off hm fr st2,
     Py.truthy hm = true -> session (self st2) = Some s ->
     http_server (world st2) = next ->
     fetch_loop (S k) url off hm (PList (items (p0 :: mids))) fr st2 =
     (Raise e,
      mkState (self st2)
        (after_requests [ReqGet (bearer_of s) (page_url url (off + 100))] rest
           (world st2)))) ->
  _fetch_data fuel url st =
  (Raise e, fetched (bearer_of s) url (S (S (List.length mids))) rest st1).
Proof.
  intros H0 Hs H Hd Hc Hf Hstep.
  replace fuel with (List.length mids + S (fuel - S (List.length mids)))%nat by lia.
  destruct (fetch_prefix (S (fuel - S (List.length mids))) url st st1 s p0 mids rs
              next H0 Hs H Hd Hc) as (hm & fr & Ht & E).
  rewrite E. clear E. unfold bind at 1.
  erewrite Hstep; [ | exact Ht | exact Hs | reflexivity ].
  f_equal. unfold fetched. cbn [self world]. rewrite after_requests_twice.
  replace (100 * Z.of_nat (List.length mids) + 100)
    with (0 + 100 * Z.of_nat (S (List.length mids))) by lia.
  now rewrite page_requests_snoc.
Qed.

(** After one or more pages that said [hasMore], a next answer that never
    arrives raises [RequestException] and a 2xx answer whose body is not
    JSON raises [JSONDecodeError]; in both cases nothing is returned and
    the items read so far are dropped. *)
Theorem fetch_data_later_answer_lost fuel url st st1 p0 mids rs ans rest :
  _set_session st = (Return tt, st1) ->
  http_server (world st1) = map Some rs ++ ans :: rest ->
  Forall2 delivers (p0 :: mids) rs ->
  Forall continuing (p0 :: mids) ->
  (forall r, ans = Some r -> is_success (status_code r) = true /\ decoded r = None) ->
  (List.length mids < fuel)%nat ->
  _fetch_data fuel url st =
  (Raise (match ans with Some _ => JSONDecodeError | None => RequestException end),
   fetched (bearer (self st1)) url (S (S (List.length mids))) rest st1).
Proof.
  intros H0 H Hd Hc Ha Hf.
  destruct (set_session_has_session st st1 H0) as [s Hs].
  rewrite <- (bearer_session _ s Hs).
  apply (fetch_raises_next fuel url st st1 s p0 mids rs (ans :: rest) rest _
           H0 Hs H Hd Hc Hf).
  intros k off hm fr st2 Ht Hs2 H2. cbn [fetch_loop]. rewrite Ht.
  unfold bind at 1. destruct ans as [r|].
  - destruct (Ha r eq_refl) as [Hc1 Hc2].
    rewrite (session_get_answer _ st2 s r rest Hs2 H2).
    unfold bind at 1. rewrite raise_for_status_success by assumption.
    unfold bind at 1. unfold json_loads. now rewrite Hc2.
  - unfold session_get. rewrite Hs2. unfold exchange.
    cbn [world log http_server]. rewrite H2. reflexivity.
Qed.

(** The server of the three pages when its second answer never arrives. *)
Lemma fetch_data_later_answer_lost_witness :
  _fetch_data 1 "u?" (valid_state [Some (reply three_pages_0); None]) =
  (Raise RequestException,
   mkState valid_service
     (mkWorld 1000 [] []
        [ReqGet (Some "tok"%string) "u?&limit=100&offset=0";
         ReqGet (Some "tok"%string) "u?&limit=100&offset=100"] 1)).
Proof.
  apply (fetch_data_later_answer_lost 1 "u?" (valid_state [Some (reply three_pages_0); None])
           (valid_state [Some (reply three_pages_0); None])
           three_pages_0 [] [reply three_pages_0] None []).
  - reflexivity.
  - reflexivity.
  - constructor; [split; reflexivity | constructor].
  - constructor; [|constructor]. unfold continuing, page_data. cbn. eauto.
  - discriminate.
  - cbn. lia.
Defined.

(** ** One POST *)

Lemma post_data_run url data st st1 r rest :
  _set_session st = (Return tt, st1) ->
  http_server (world st1) = Some r :: rest ->
  _post_data url data st =
  ((if is_success (status_code r)
    then match decoded r with
         | Some v => Return v
         | None => Raise JSONDecodeError
         end
    else Raise (HTTPError (status_code r))),
   mkState (self st1)
     (after_requests [ReqPost (bearer (self st1)) url data] rest (world st1))).
Proof.
  intros H0 H.
  destruct (set_session_has_session st st1 H0) as [s Hs].
  rewrite <- (bearer_session _ s Hs).
  unfold _post_data. unfold bind at 1. rewrite H0.
  unfold bind at 1. unfold session_post. rewrite Hs.
  rewrite (exchange_answer _ st1 r rest H).
  unfold bind at 1. unfold raise_for_status.
  destruct (is_success (status_code r)); [|reflexivity].
  unfold ret at 1. unfold json_loads. destruct (decoded r); reflexivity.
Qed.

(** A post, once the session check has returned, makes exactly one POST of
    the given payload with the session's bearer token and consumes exactly
    one answer: a 2xx JSON body is returned, a 2xx body that is not JSON
    raises [JSONDecodeError], any other status raises [HTTPError] with it;
    nothing is retried and no token is requested because of the answer. *)
Theorem post_data_once url data st st1 r rest :
  _set_session st = (Return tt, st1) ->
  http_server (world st1) = Some r :: rest ->
  _post_data url data st =
  ((if is_success (status_code r)
    then match decoded r with
         | Some v => Return v
         | None => Raise JSONDecodeError
         end
    else Raise (HTTPError (status_code r))),
   mkState (self st1)
     (after_requests [ReqPost (bearer (self st1)) url data] rest (world st1))).
Proof. apply post_data_run. Qed.

Lemma post_data_once_witness :
  _post_data "u" (PDict []) (valid_state [Some (mkResponse 401 None)]) =
  (Raise (HTTPError 401),
   mkState valid_service
     (mkWorld 1000 [] [] [ReqPost (Some "tok"%string) "u" (PDict [])] 1)).
Proof.
  apply (post_data_once "u" (PDict []) (valid_state [Some (mkResponse 401 None)])
           (valid_state [Some (mkResponse 401 None)]) (mkResponse 401 None) []);
    reflexivity.
Defined.

(** ** The merged page *)

Lemma lookup_set_same k v (d : dict) : Py.lookup k (Py.set k v d) = Some v.
Proof.
  induction d as [|[k' v'] d IH]; cbn [Py.set Py.lookup].
  - now rewrite String.eqb_refl.
  - destruct (String.eqb k k') eqn:E; cbn [Py.lookup]; rewrite ?String.eqb_refl; trivial.
    now rewrite E.
Qed.

Lemma lookup_set_other k k' v (d : dict) :
  k <> k' -> Py.lookup k (Py.set k' v d) = Py.lookup k d.
Proof.
  intros Hn. apply String.eqb_neq in Hn.
  induction d as [|[k0 v0] d IH]; cbn [Py.set Py.lookup].
  - now rewrite Hn.
  - destruct (String.eqb k' k0) eqn:E; cbn [Py.lookup].
    + apply String.eqb_eq in E. subst k0. now rewrite Hn.
    + now rewrite IH.
Qed.

(** In the result of a fetch that accumulated items, [data] is the
    concatenation, [count] is the last page's [total], and every other
    field is the last page's, with its value unchanged; fields of the
    earlier pages are not in the result. *)
Theorem fetch_data_passes_fields fuel url st st1 mids dl ll rs rest total :
  _set_session st = (Return tt, st1) ->
  http_server (world st1) = map Some rs ++ rest ->
  Forall2 delivers (mids ++ [PDict dl]) rs ->
  Forall continuing mids ->
  Py.lookup "data" dl = Some (PList ll) ->
  ends_fetch mids dl = true ->
  (List.length mids <= fuel)%nat ->
  items mids ++ ll <> [] ->
  Py.lookup "total" dl = Some total ->
  exists result,
    fst (_fetch_data fuel url st) = Return (PDict result) /\
    Py.lookup "data" result = Some (PList (items mids ++ ll)) /\
    Py.lookup "count" result = Some total /\
    forall k, k <> "data"%string -> k <> "count"%string ->
      Py.lookup k result = Py.lookup k dl.
Proof.
  intros H0 H Hd Hc Hl He Hf Hne Ht.
  destruct (set_session_has_session st st1 H0) as [s Hs].
  exists (Py.set "data" (PList (items mids ++ ll)) (Py.set "count" total dl)).
  rewrite (fetch_run fuel url st st1 s mids dl ll rs rest H0 Hs H Hd Hc Hl He Hf).
  rewrite finish_outcome, Ht.
  destruct (items mids ++ ll) as [|x acc] eqn:E; [contradiction|].
  repeat split.
  - apply lookup_set_same.
  - rewrite lookup_set_other by discriminate. apply lookup_set_same.
  - intros k Hk1 Hk2. now rewrite !lookup_set_other.
Qed.

Lemma fetch_data_passes_fields_witness :
  exists result,
    fst (_fetch_data 1 "u?" (two_page_state annotated_page)) = Return (PDict result) /\
    Py.lookup "data" result = Some (PList [PInt 1; PInt 2; PInt 3]) /\
    Py.lookup "count" result = Some (PInt 3) /\
    forall k, k <> "data"%string -> k <> "count"%string ->
      Py.lookup k result = Py.lookup k annotated_page.
Proof.
  apply (fetch_data_passes_fields 1 "u?" (two_page_state annotated_page)
           (snd (_set_session (two_page_state annotated_page)))
           [three_pages_0] annotated_page [PInt 3]
           [reply three_pages_0; reply (PDict annotated_page)] [] (PInt 3)).
  - reflexivity.
  - reflexivity.
  - repeat (constructor; [split; reflexivity|]). constructor.
  - constructor; [|constructor]. unfold continuing, page_data. cbn. eauto.
  - reflexivity.
  - reflexivity.
  - cbn. lia.
  - discriminate.
  - reflexivity.
Defined.

(** ** Answers that are not objects *)

Lemma getitem_not_dict (p : pyval) k :
  (forall d, p <> PDict d) -> Py.getitem p k = inl TypeError.
Proof. intros H. destruct p; trivial. now destruct (H d). Qed.

Lemma contains_error (p : pyval) k e : Py.contains k p = inl e -> e = TypeError.
Proof. destruct p; cbn; congruence. Qed.

(** When the first answer decodes to something that is not a JSON object,
    one GET is made and: a list or string in which neither ['hasMore'] nor
    ['data'] is found is returned as it is; one in which either is found,
    and any number, boolean or null, raises [TypeError]. *)
Theorem fetch_data_not_an_object fuel url st st1 r rest p :
  _set_session st = (Return tt, st1) ->
  http_server (world st1) = Some r :: rest ->
  delivers p r ->
  (forall d, p <> PDict d) ->
  _fetch_data fuel url st =
  (match Py.contains "hasMore" p, Py.contains "data" p with
   | inr false, inr false => Return p
   | _, _ => Raise TypeError
   end,
   fetched (bearer (self st1)) url 1 rest st1).
Proof.
  intros H0 H Hp Hn.
  destruct (set_session_has_session st st1 H0) as [s Hs].
  rewrite <- (bearer_session _ s Hs).
  unfold _fetch_data. unfold bind at 1. rewrite H0.
  rewrite (get_page _ st1 s r rest p _ Hs H Hp).
  unfold fetched. cbn [page_requests].
  unfold bind at 1.
  destruct (Py.contains "hasMore" p) as [e|b1] eqn:E1.
  { apply contains_error in E1. now subst e. }
  unfold lift at 1, ret at 1. unfold bind at 1. destruct b1.
  { now rewrite (getitem_not_dict p "hasMore" Hn). }
  unfold ret at 1. unfold bind at 1.
  destruct (Py.contains "data" p) as [e|b2] eqn:E2.
  { apply contains_error in E2. now subst e. }
  unfold lift at 1, ret at 1. unfold bind at 1. destruct b2.
  { now rewrite (getitem_not_dict p "data" Hn). }
  unfold ret at 1. unfold bind at 1.
  rewrite fetch_loop_exit by reflexivity. reflexivity.
Qed.

Lemma fetch_data_not_an_object_witness :
  _fetch_data 2 "u?" (valid_state [Some (reply (PList [PStr "a"; PStr "b"]))]) =
    (Return (PList [PStr "a"; PStr "b"]),
     fetched (Some "tok"%string) "u?" 1 []
       (valid_state [Some (reply (PList [PStr "a"; PStr "b"]))])) /\
  _fetch_data 2 "u?" (valid_state [Some (reply (PInt 7))]) =
    (Raise TypeError,
     fetched (Some "tok"%string) "u?" 1 [] (valid_state [Some (reply (PInt 7))])).
Proof.
  split.
  - apply (fetch_data_not_an_object 2 "u?"
             (valid_state [Some (reply (PList [PStr "a"; PStr "b"]))])
             (valid_state [Some (reply (PList [PStr "a"; PStr "b"]))])
             (reply (PList [PStr "a"; PStr "b"])) [] (PList [PStr "a"; PStr "b"]));
      try reflexivity; [split; reflexivity | discriminate].
  - apply (fetch_data_not_an_object 2 "u?" (valid_state [Some (reply (PInt 7))])
             (valid_state [Some (reply (PInt 7))]) (reply (PInt 7)) [] (PInt 7));
      try reflexivity; [split; reflexivity | discriminate].
Defined.

(** ** A first page that says [hasMore] and has no [data] *)

Lemma fetch_loop_none_data fuel url off hm fr (st : State) :
  Py.truthy hm = true ->
  exists e, fst (fetch_loop (S fuel) url off hm PNone fr st) = Raise e.
Proof.
  intros Ht. cbn [fetch_loop]. rewrite Ht. unfold bind at 1. unfold session_get.
  destruct (session (self st)) as [s|]; [|eexists; reflexivity].
  unfold exchange. cbn [world log http_server].
  destruct (http_server (world st)) as [|[r|] rest]; try (eexists; reflexivity).
  unfold bind at 1. unfold raise_for_status.
  destruct (is_success (status_code r)); [|eexists; reflexivity].
  unfold ret at 1. unfold bind at 1. unfold json_loads.
  destruct (decoded r) as [p|]; [|eexists; reflexivity].
  unfold ret at 1. unfold bind at 1.
  destruct (Py.getitem p "data") as [e|d]; eexists; reflexivity.
Qed.

(** When the first page says [hasMore] and has no [data] field, the fetch
    returns nothing whatever the server does next: [data] is still [None]
    when the loop adds to it, so the fetch ends in an error. *)
Theorem fetch_data_has_more_without_data fuel url st st1 r rest d0 v :
  _set_session st = (Return tt, st1) ->
  http_server (world st1) = Some r :: rest ->
  delivers (PDict d0) r ->
  Py.lookup "hasMore" d0 = Some v ->
  Py.truthy v = true ->
  Py.lookup "data" d0 = None ->
  (1 <= fuel)%nat ->
  exists e, fst (_fetch_data fuel url st) = Raise e.
Proof.
  intros H0 H Hp Hv Ht Hd Hf.
  destruct (set_session_has_session st st1 H0) as [s Hs].
  rewrite (fetch_first_page fuel url st st1 s r rest d0 H0 Hs H Hp).
  unfold first_has_more, first_data. rewrite Hv, Hd.
  destruct fuel as [|fuel]; [lia|]. unfold bind.
  destruct (fetch_loop_none_data fuel url 0 v (PDict d0)
              (mkState (self st1)
                 (after_requests [ReqGet (bearer_of s) (page_url url 0)] rest (world st1)))
              Ht) as [e He].
  destruct (fetch_loop (S fuel) url 0 v PNone (PDict d0) _) as [[x|e'|] st2];
    cbn [fst] in *; try discriminate. eauto.
Qed.

Lemma fetch_data_has_more_without_data_witness :
  exists e,
    fst (_fetch_data 4 "u?"
           (valid_state [Some (reply (PDict dataless_page));
                         Some (reply (PDict three_pages_2))])) = Raise e.
Proof.
  apply (fetch_data_has_more_without_data 4 "u?" _
           (valid_state [Some (reply (PDict dataless_page));
                         Some (reply (PDict three_pages_2))])
           (reply (PDict dataless_page)) [Some (reply (PDict three_pages_2))]
           dataless_page (PBool true)).
  - reflexivity.
  - reflexivity.
  - split; reflexivity.
  - reflexivity.
  - reflexivity.
  - reflexivity.
  - lia.
Defined.

(** ** The constructor *)

(** When the token endpoint grants two tokens, the constructor returns an
    object whose consumer session holds the first and whose admin session,
    another object, holds the second, after exactly two token requests to
    the token URL of the chosen environment. *)
Theorem init_two_sessions cid sec scp (env : pyval) (w : World) t1 t2 rest :
  token_endpoint w = Some t1 :: Some t2 :: rest ->
  __init__ cid sec scp env w =
  (Return tt,
   mkState
     (set_admin_session
        (Some (mkSession (S (next_id w)) (mkClient cid scp) (Some t2)))
        (set_session (Some (mkSession (next_id w) (mkClient cid scp) (Some t1)))
           (init_attributes cid sec scp env)))
     (mkWorld (now w) rest (http_server w)
        (trace w ++
         [ReqToken (token_url (init_attributes cid sec scp env)) cid sec scp;
          ReqToken (token_url (init_attributes cid sec scp env)) cid sec scp])
        (S (S (next_id w))))).
Proof.
  intros H. unfold __init__, init_attributes.
  destruct (Py.eq_str env "live");
    unfold bind, _set_session, _set_setup_session, bind, unix_timestamp_now, get_self;
    cbn; rewrite H; cbn;
    unfold set_admin_session, set_session, set_token, set_token_endpoint, log, bump_id;
    cbn; rewrite <- app_assoc; reflexivity.
Qed.

Lemma init_two_sessions_witness :
  fst (__init__ "id" "secret" "OnSchedAPI" (PStr "live")
         (mkWorld 0 [Some (mkToken "a" 10); Some (mkToken "b" 20)] [] [] 0)) = Return tt /\
  installed (self (snd (__init__ "id" "secret" "OnSchedAPI" (PStr "live")
         (mkWorld 0 [Some (mkToken "a" 10); Some (mkToken "b" 20)] [] [] 0)))) =
    Some (mkToken "a" 10).
Proof.
  rewrite (init_two_sessions "id" "secret" "OnSchedAPI" (PStr "live")
             (mkWorld 0 [Some (mkToken "a" 10); Some (mkToken "b" 20)] [] [] 0)
             (mkToken "a" 10) (mkToken "b" 20) [] eq_refl).
  split; reflexivity.
Defined.

(** The constructor returns only if both token requests are granted: it
    raises the token error as soon as one fails, and when the first fails
    the second is never made and [admin_session] stays [None]. *)
Theorem init_needs_both_tokens cid sec scp (env : pyval) (w : World) :
  fst (__init__ cid sec scp env w) =
    match token_endpoint w with
    | Some _ :: Some _ :: _ => Return tt
    | _ => Raise OAuth2Error
    end /\
  match token_endpoint w with
  | Some _ :: _ =>
      List.length (trace (world (snd (__init__ cid sec scp env w)))) =
        (List.length (trace w) + 2)%nat
  | _ =>
      List.length (trace (world (snd (__init__ cid sec scp env w)))) =
        (List.length (trace w) + 1)%nat /\
      admin_session (self (snd (__init__ cid sec scp env w))) = None
  end.
Proof.
  unfold __init__, init_attributes.
  destruct (Py.eq_str env "live");
    unfold bind, _set_session, _set_setup_session, bind, unix_timestamp_now, get_self;
    cbn; destruct (token_endpoint w) as [|[t1|] [|[t2|] rest]]; cbn;
    unfold set_admin_session, set_session, set_token, set_token_endpoint, log, bump_id;
    cbn; rewrite ?length_app; cbn; repeat split; lia.
Qed.

(** ** [create_service] and the fee *)

Lemma create_service_without_fee (name description duration location_id
    service_group_id public default_service duration_select duration_interval
    duration_min duration_max padding consumer_padding fee_amount fee_taxable
    cancellation_fee_amount cancellation_fee_taxable nonrefundable : pyval)
    (st : State) :
  any_truthy [fee_amount; fee_taxable; cancellation_fee_amount;
              cancellation_fee_taxable; nonrefundable] = false ->
  exists payload,
    create_service name description duration location_id service_group_id public
      default_service duration_select duration_interval duration_min duration_max
      padding consumer_padding fee_amount fee_taxable cancellation_fee_amount
      cancellation_fee_taxable nonrefundable st =
    _post_data (setup_api (self st) ++ "/services") (PDict payload) st /\
    Py.lookup "fee" payload = None /\
    Py.lookup "name" payload = Some name /\
    Py.lookup "description" payload = Some description.
Proof.
  intros F. unfold create_service. rewrite F.
  unfold bind at 1. unfold get_self at 1. cbv zeta.
  cbn [Py.truthy]. eexists. split; [reflexivity|].
  unfold set_if.
  destruct (Py.truthy location_id), (Py.truthy duration),
    (Py.truthy service_group_id), (Py.truthy public),
    (any_truthy [default_service; duration_select; duration_interval;
                 duration_min; duration_max; padding; consumer_padding]);
    repeat split.
Qed.

(** No call of [create_service] sends a fee: the call either raises
    [KeyError('fee')] without any request, or posts to
    [<setup_api>/services] a payload that has the given [name] and
    [description] and no [fee] key. *)
Theorem create_service_never_sends_fee (name description duration location_id
    service_group_id public default_service duration_select duration_interval
    duration_min duration_max padding consumer_padding fee_amount fee_taxable
    cancellation_fee_amount cancellation_fee_taxable nonrefundable : pyval)
    (st : State) :
  create_service name description duration location_id service_group_id public
    default_service duration_select duration_interval duration_min duration_max
    padding consumer_padding fee_amount fee_taxable cancellation_fee_amount
    cancellation_fee_taxable nonrefundable st =
  (Raise (KeyError "fee"), st) \/
  exists payload,
    create_service name description duration location_id service_group_id public
      default_service duration_select duration_interval duration_min duration_max
      padding consumer_padding fee_amount fee_taxable cancellation_fee_amount
      cancellation_fee_taxable nonrefundable st =
    _post_data (setup_api (self st) ++ "/services") (PDict payload) st /\
    Py.lookup "fee" payload = None /\
    Py.lookup "name" payload = Some name /\
    Py.lookup "description" payload = Some description.
Proof.
  destruct (any_truthy [fee_amount; fee_taxable; cancellation_fee_amount;
                        cancellation_fee_taxable; nonrefundable]) eqn:F.
  - left. unfold create_service. rewrite F.
    unfold bind at 1. unfold get_self at 1. cbv zeta.
    cbn [Py.set Py.truthy String.eqb Ascii.eqb Bool.eqb].
    unfold bind at 1. cbn [Py.getitem].
    match goal with
    | |- context [Py.lookup "fee" ?p] =>
        replace (Py.lookup "fee" p) with (@None pyval)
    end.
    + reflexivity.
    + symmetry. apply create_service_payload_has_no_fee.
  - right. now apply create_service_without_fee.
Qed.

(** Without a fee, [create_service] posts to the setup API with the
    consumer session: once the consumer session check has returned, the one
    request made is a POST to [<setup_api>/services] carrying the bearer
    token of [self.session], with the given [name] in the payload; the admin
    session is not used. *)
Theorem create_service_uses_consumer_session (name description duration
    location_id service_group_id public default_service duration_select
    duration_interval duration_min duration_max padding consumer_padding
    fee_amount fee_taxable cancellation_fee_amount cancellation_fee_taxable
    nonrefundable : pyval) (st st1 : State) r rest :
  any_truthy [fee_amount; fee_taxable; cancellation_fee_amount;
              cancellation_fee_taxable; nonrefundable] = false ->
  _set_session st = (Return tt, st1) ->
  http_server (world st1) = Some r :: rest ->
  exists payload,
    snd (create_service name description duration location_id service_group_id
           public default_service duration_select duration_interval duration_min
           duration_max padding consumer_padding fee_amount fee_taxable
           cancellation_fee_amount cancellation_fee_taxable nonrefundable st) =
    mkState (self st1)
      (after_requests
         [ReqPost (bearer (self st1)) (setup_api (self st) ++ "/services")
            (PDict payload)]
         rest (world st1)) /\
    Py.lookup "name" payload = Some name.
Proof.
  intros F H0 H.
  destruct (create_service_without_fee name description duration location_id
              service_group_id public default_service duration_select
              duration_interval duration_min duration_max padding consumer_padding
              fee_amount fee_taxable cancellation_fee_amount
              cancellation_fee_taxable nonrefundable st F)
    as (payload & E & _ & Hn & _).
  exists payload. split; [|exact Hn].
  rewrite E, (post_data_run _ _ st st1 r rest H0 H). reflexivity.
Qed.

Lemma create_service_uses_consumer_session_witness :
  exists payload,
    snd (create_service (PStr "Haircut") (PStr "Wash and cut") (PInt 30) (PStr "loc-1")
           (PStr "") (PBool true) (PBool false) (PBool false) (PInt 0) (PInt 0)
           (PInt 0) (PInt 0) (PBool false) (PInt 0) (PBool false) (PInt 0)
           (PBool false) (PBool false) (valid_state [Some (reply PNone)])) =
    mkState valid_service
      (after_requests
         [ReqPost (Some "tok"%string) "https://sandbox-api.onsched.com/setup/v1/services"
            (PDict payload)]
         [] (world (valid_state [Some (reply PNone)]))) /\
    Py.lookup "name" payload = Some (PStr "Haircut").
Proof.
  apply (create_service_uses_consumer_session (PStr "Haircut") (PStr "Wash and cut")
           (PInt 30) (PStr "loc-1") (PStr "") (PBool true) (PBool false) (PBool false)
           (PInt 0) (PInt 0) (PInt 0) (PInt 0) (PBool false) (PInt 0) (PBool false)
           (PInt 0) (PBool false) (PBool false)
           (valid_state [Some (reply PNone)]) (valid_state [Some (reply PNone)])
           (reply PNone) []); reflexivity.
Defined.

(** ** The date arguments of [availability] *)

Lemma date_argument_text (v : pyval) :
  date_argument v =
  match date_text v with
  | Some s => ret s
  | None => raise TypeError
  end.
Proof. destruct v; reflexivity. Qed.

(** When [start_date] or [end_date] is neither a [date] nor a [str],
    [availability] raises [TypeError] whatever the other arguments are, and
    object and world are as they were: no request was made. *)
Theorem availability_bad_date (urlencode : dict -> string) fuel service_id
    start_date end_date start_time end_time location_id resource_id
    resource_group_id resource_ids duration tz_offset day_availability
    first_day_available (st : State) :
  date_or_str start_date = false \/ date_or_str end_date = false ->
  availability urlencode fuel service_id start_date end_date start_time end_time
    location_id resource_id resource_group_id resource_ids duration tz_offset
    day_availability first_day_available st =
  (Raise TypeError, st).
Proof.
  intros H. unfold availability.
  destruct start_date; try reflexivity;
    (destruct H as [H|H]; [discriminate H|]);
    destruct end_date; try reflexivity; discriminate H.
Qed.

Lemma availability_bad_date_witness :
  availability (fun _ => EmptyString) 3 "svc" (PInt 20240229) (PStr "2024-03-01")
    (PInt 0) (PInt 0) (PStr "") (PStr "") (PStr "") PNone (PInt 0) (PInt 0) (PInt 0)
    (PBool false) demo_state =
  (Raise TypeError, demo_state).
Proof.
  apply (availability_bad_date (fun _ => EmptyString) 3 "svc" (PInt 20240229)).
  left. reflexivity.
Defined.

(** A [date] and the string [isoformat()] makes of it are interchangeable
    as [start_date] and [end_date] of [availability]: the two calls do the
    same in every state. *)
Theorem availability_date_or_text (urlencode : dict -> string) fuel service_id
    (d1 d2 : date) start_time end_time location_id resource_id
    resource_group_id resource_ids duration tz_offset day_availability
    first_day_available (st : State) :
  availability urlencode fuel service_id (PDate d1) (PDate d2) start_time end_time
    location_id resource_id resource_group_id resource_ids duration tz_offset
    day_availability first_day_available st =
  availability urlencode fuel service_id (PStr (isoformat d1)) (PStr (isoformat d2))
    start_time end_time location_id resource_id resource_group_id resource_ids
    duration tz_offset day_availability first_day_available st.
Proof. reflexivity. Qed.

(** A non-empty string passed as [resource_ids] is not sent: the call does
    what it does for the string [','], which is what [resource_ids.join(',')]
    evaluates to. *)
Theorem availability_string_resource_ids (urlencode : dict -> string) fuel
    service_id start_date end_date start_time end_time location_id resource_id
    resource_group_id (ids : string) duration tz_offset day_availability
    first_day_available (st : State) :
  ids <> EmptyString ->
  availability urlencode fuel service_id start_date end_date start_time end_time
    location_id resource_id resource_group_id (PStr ids) duration tz_offset
    day_availability first_day_available st =
  availability urlencode fuel service_id start_date end_date start_time end_time
    location_id resource_id resource_group_id (PStr ",") duration tz_offset
    day_availability first_day_available st.
Proof.
  intros H. unfold availability. cbn [Py.truthy join_comma].
  apply String.eqb_neq in H. rewrite H. reflexivity.
Qed.

Lemma availability_string_resource_ids_witness :
  availability (fun _ => EmptyString) 3 "svc" (PStr "2024-02-29") (PStr "2024-03-01")
    (PInt 0) (PInt 0) (PStr "") (PStr "") (PStr "") (PStr "r1,r2") (PInt 0) (PInt 0)
    (PInt 0) (PBool false) demo_state =
  availability (fun _ => EmptyString) 3 "svc" (PStr "2024-02-29") (PStr "2024-03-01")
    (PInt 0) (PInt 0) (PStr "") (PStr "") (PStr "") (PStr ",") (PInt 0) (PInt 0)
    (PInt 0) (PBool false) demo_state.
Proof.
  apply (availability_string_resource_ids (fun _ => EmptyString) 3 "svc").
  discriminate.
Defined.

(** ** [create_service_allocation] *)

(** When [start_date] or [end_date] is neither a [date] nor a [str] (a
    [datetime] is neither), [create_service_allocation] raises [TypeError]
    and makes no request. *)
Theorem create_service_allocation_bad_date service_id start_date end_date
    start_time end_time location_id resource_id reason all_day (st : State) :
  date_or_str start_date = false \/ date_or_str end_date = false ->
  create_service_allocation service_id start_date end_date start_time end_time
    location_id resource_id reason all_day st =
  (Raise TypeError, st).
Proof.
  intros H. unfold create_service_allocation.
  destruct start_date; try reflexivity;
    (destruct H as [H|H]; [discriminate H|]);
    destruct end_date; try reflexivity; discriminate H.
Qed.

Lemma create_service_allocation_bad_date_witness :
  create_service_allocation "svc" (PStr "2024-02-29") PNone (PInt 900) (PInt 1700)
    (PStr "") (PStr "") (PStr "") (PBool false) demo_state =
  (Raise TypeError, demo_state).
Proof.
  apply (create_service_allocation_bad_date "svc" (PStr "2024-02-29") PNone).
  right. reflexivity.
Defined.

(** With dates of an accepted type, [create_service_allocation] hands one
    payload to [_post_setup_data] for [<setup_api>/services/<id>/allocations]:
    it always has the two dates as text, and it has [startTime], [endTime]
    and [allDay] only when the argument tests true, so that a start or end
    time of 0 (midnight) is not sent. *)
Theorem create_service_allocation_payload service_id start_date end_date
    start_time end_time location_id resource_id reason all_day (st : State) sd ed :
  date_text start_date = Some sd ->
  date_text end_date = Some ed ->
  exists payload,
    create_service_allocation service_id start_date end_date start_time end_time
      location_id resource_id reason all_day st =
    _post_setup_data (setup_api (self st) ++ "/services/" ++ service_id ++ "/allocations")
      (PDict payload) st /\
    Py.lookup "startDate" payload = Some (PStr sd) /\
    Py.lookup "endDate" payload = Some (PStr ed) /\
    Py.lookup "startTime" payload =
      (if Py.truthy start_time then Some start_time else None) /\
    Py.lookup "endTime" payload =
      (if Py.truthy end_time then Some end_time else None) /\
    Py.lookup "allDay" payload =
      (if Py.truthy all_day then Some (PStr "true") else None).
Proof.
  intros Hs He. unfold create_service_allocation.
  rewrite !date_argument_text, Hs, He.
  unfold bind, get_self, ret. cbv zeta.
  eexists. split; [reflexivity|]. unfold set_if.
  destruct (Py.truthy location_id), (Py.truthy resource_id), (Py.truthy start_time),
    (Py.truthy end_time), (Py.truthy reason), (Py.truthy all_day);
    repeat split.
Qed.

Lemma create_service_allocation_payload_witness :
  exists payload,
    create_service_allocation "svc" (PDate (mkDate 2024 2 29)) (PStr "2024-03-01")
      (PInt 0) (PInt 1700) (PStr "") (PStr "") (PStr "") (PBool false) demo_state =
    _post_setup_data "https://sandbox-api.onsched.com/setup/v1/services/svc/allocations"
      (PDict payload) demo_state /\
    Py.lookup "startDate" payload = Some (PStr "2024-02-29") /\
    Py.lookup "endDate" payload = Some (PStr "2024-03-01") /\
    Py.lookup "startTime" payload = None /\
    Py.lookup "endTime" payload = Some (PInt 1700) /\
    Py.lookup "allDay" payload = None.
Proof.
  apply (create_service_allocation_payload "svc" (PDate (mkDate 2024 2 29))
           (PStr "2024-03-01") (PInt 0) (PInt 1700) (PStr "") (PStr "") (PStr "")
           (PBool false) demo_state "2024-02-29" "2024-03-01"); reflexivity.
Defined.

(** ** Resources and appointments *)

Lemma lookup_set_if_other k key v (d : dict) :
  k <> key -> Py.lookup k (set_if v key d) = Py.lookup k d.
Proof.
  intros H. unfold set_if. destruct (Py.truthy v); trivial.
  now apply lookup_set_other.
Qed.

Lemma dict_update_lookup_other k (extra : dict) : forall d,
  Py.lookup k extra = None -> Py.lookup k (dict_update d extra) = Py.lookup k d.
Proof.
  unfold dict_update. induction extra as [|[k0 v0] extra IH]; intros d H; [reflexivity|].
  cbn [Py.lookup] in H. cbn [fold_left fst snd].
  destruct (String.eqb k k0) eqn:E; [discriminate|].
  rewrite (IH _ H). apply lookup_set_other. now apply String.eqb_neq.
Qed.

Section Resources.

Variable datetime : Type.
Variable datetime_isoformat : datetime -> string.

Variables email description location_id group_id timezone_id addressline1
  addressline2 city state country postal_code contact_preferred_phone_type
  contact_home_phone contact_mobile_phone contact_business_phone
  contact_business_phone_ext contact_skype_username : pyval.
Variable effective_date : argument datetime.
Variables notification_type display_color google_calendar_id
  outlook_calendar_id ignore_business_hours gender hourly calendar_availability
  sort_key bio_link : pyval.

Local Abbreviation resources_data :=
  (_get_resources_data datetime datetime_isoformat email description location_id
    group_id timezone_id addressline1 addressline2 city state country postal_code
    contact_preferred_phone_type contact_home_phone contact_mobile_phone
    contact_business_phone contact_business_phone_ext contact_skype_username
    effective_date notification_type display_color google_calendar_id
    outlook_calendar_id ignore_business_hours gender hourly calendar_availability
    sort_key bio_link).

Local Abbreviation create_resource_call name :=
  (create_resource datetime datetime_isoformat name email description location_id
    group_id timezone_id addressline1 addressline2 city state country postal_code
    contact_preferred_phone_type contact_home_phone contact_mobile_phone
    contact_business_phone contact_business_phone_ext contact_skype_username
    effective_date notification_type display_color google_calendar_id
    outlook_calendar_id ignore_business_hours gender hourly calendar_availability
    sort_key bio_link).

Lemma get_resources_data_raises :
  argument_truthy datetime effective_date = true ->
  datetime_or_str effective_date = false ->
  resources_data = inl TypeError.
Proof.
  intros Ht Hd. unfold _get_resources_data. cbv zeta.
  rewrite Ht. cbn [orb].
  destruct effective_date as [v|t]; [|discriminate Hd].
  destruct v; try reflexivity; discriminate Hd.
Qed.

Lemma get_resources_data_returns :
  argument_truthy datetime effective_date = false \/
  datetime_or_str effective_date = true ->
  exists extra, resources_data = inr extra.
Proof.
  intros H. unfold _get_resources_data. cbv zeta.
  destruct (argument_truthy datetime effective_date) eqn:Ht.
  - destruct H as [H|H]; [discriminate|]. cbn [orb].
    destruct effective_date as [v|t].
    + destruct v; try discriminate H. cbn. eauto.
    + cbn. eauto.
  - cbn [orb]. destruct (any_truthy _); eauto.
Qed.

Lemma get_resources_data_name extra :
  resources_data = inr extra -> Py.lookup "name" extra = None.
Proof.
  unfold _get_resources_data. cbv zeta.
  match goal with
  | |- match ?o with _ => _ end = _ -> _ => destruct o as [e|options]
  end; [discriminate|].
  intros [= <-]. now rewrite !lookup_set_if_other by discriminate.
Qed.

Lemma get_resources_data_address_lookup extra :
  resources_data = inr extra ->
  Py.lookup "address" extra =
  if any_truthy [addressline1; addressline2; city; state; postal_code; country]
  then Some (PDict [("addressline1", addressline1); ("addressline2", addressline2);
                    ("city", city); ("state", state); ("postalCode", postal_code);
                    ("country", country)]%string)
  else None.
Proof.
  unfold _get_resources_data.
  set (basics := set_if timezone_id "timezoneId" _).
  set (address := if any_truthy [addressline1; addressline2; city; state;
                                 postal_code; country] then _ else _).
  set (contact := if any_truthy [contact_preferred_phone_type; contact_home_phone;
                                 contact_mobile_phone; contact_business_phone;
                                 contact_business_phone_ext; contact_skype_username]
                  then _ else _).
  cbv zeta.
  match goal with
  | |- match ?o with _ => _ end = _ -> _ => destruct o as [e|options]
  end; [discriminate|].
  intros H.
  assert (extra =
          set_if (PDict options) "options"
            (set_if (PDict contact) "contact"
               (set_if (PDict address) "address" basics))) as -> by congruence.
  clear H. rewrite !(lookup_set_if_other "address") by discriminate.
  subst address basics.
  destruct (any_truthy [addressline1; addressline2; city; state; postal_code; country]).
  - unfold set_if at 1. cbn [Py.truthy Py.set String.eqb Ascii.eqb Bool.eqb].
    apply lookup_set_same.
  - unfold set_if at 1. cbn [Py.truthy].
    now rewrite !lookup_set_if_other by discriminate.
Qed.

(** Whatever the resource arguments are, [create_resource] sends the given
    [name]: unless the effective date is rejected, it hands
    [_post_setup_data] one payload for [<setup_api>/resources] whose [name]
    is the argument, which no item of [_get_resources_data] overwrites. *)
Theorem create_resource_keeps_name (name : pyval) (st : State) :
  argument_truthy datetime effective_date = false \/
  datetime_or_str effective_date = true ->
  exists payload,
    create_resource_call name st =
    _post_setup_data (setup_api (self st) ++ "/resources") (PDict payload) st /\
    Py.lookup "name" payload = Some name.
Proof.
  intros H. destruct (get_resources_data_returns H) as [extra E].
  unfold create_resource. unfold bind at 1. unfold get_self at 1. cbv zeta.
  rewrite E. unfold lift at 1, bind at 1, ret at 1.
  eexists. split; [reflexivity|].
  rewrite (dict_update_lookup_other "name" extra _ (get_resources_data_name extra E)).
  reflexivity.
Qed.

(** An effective date that tests true and is neither a [datetime] nor a
    [str] (a [date], for one) makes [create_resource] raise [TypeError]
    before any request. *)
Theorem create_resource_bad_effective_date (name : pyval) (st : State) :
  argument_truthy datetime effective_date = true ->
  datetime_or_str effective_date = false ->
  create_resource_call name st = (Raise TypeError, st).
Proof.
  intros Ht Hd. unfold create_resource. unfold bind at 1. unfold get_self at 1.
  cbv zeta. now rewrite (get_resources_data_raises Ht Hd).
Qed.

(** The address is sent whole or not at all: when one of the six address
    arguments tests true, the resource data has an [address] with all six
    fields, each as given (empty ones too); otherwise it has no [address]. *)
Theorem get_resources_data_address extra :
  resources_data = inr extra ->
  Py.lookup "address" extra =
  if any_truthy [addressline1; addressline2; city; state; postal_code; country]
  then Some (PDict [("addressline1", addressline1); ("addressline2", addressline2);
                    ("city", city); ("state", state); ("postalCode", postal_code);
                    ("country", country)]%string)
  else None.
Proof. apply get_resources_data_address_lookup. Qed.

End Resources.

(** A [date] where a [datetime] is expected, and a city alone. *)
Lemma create_resource_bad_effective_date_witness :
  create_resource unit (fun _ => EmptyString) (PStr "Ann") (PStr "") (PStr "") (PStr "")
    (PStr "") (PStr "") (PStr "") (PStr "") (PStr "") (PStr "") (PStr "") (PStr "")
    (PStr "") (PStr "") (PStr "") (PStr "") (PStr "") (PStr "")
    (Value (PDate (mkDate 2024 2 29))) (PInt 0) (PStr "") (PStr "") (PStr "")
    (PBool false) (PStr "") (PInt 0) (PInt 0) (PInt 0) (PStr "") demo_state =
  (Raise TypeError, demo_state).
Proof.
  apply (create_resource_bad_effective_date unit (fun _ => EmptyString)); reflexivity.
Defined.

Lemma create_resource_keeps_name_witness :
  exists payload,
    create_resource unit (fun _ => EmptyString) (PStr "Ann") (PStr "ann@example.org")
      (PStr "") (PStr "") (PStr "") (PStr "") (PStr "") (PStr "") (PStr "Oslo") (PStr "")
      (PStr "") (PStr "") (PStr "") (PStr "") (PStr "") (PStr "") (PStr "") (PStr "")
      (DateTime tt) (PInt 0) (PStr "") (PStr "") (PStr "")
      (PBool false) (PStr "") (PInt 0) (PInt 0) (PInt 0) (PStr "") demo_state =
    _post_setup_data "https://sandbox-api.onsched.com/setup/v1/resources"
      (PDict payload) demo_state /\
    Py.lookup "name" payload = Some (PStr "Ann").
Proof.
  apply (create_resource_keeps_name unit (fun _ => EmptyString)).
  right. reflexivity.
Defined.

Lemma get_resources_data_address_witness :
  exists extra,
    _get_resources_data unit (fun _ => EmptyString) (PStr "") (PStr "")
      (PStr "") (PStr "") (PStr "") (PStr "") (PStr "") (PStr "") (PStr "Oslo")
      (PStr "") (PStr "") (PStr "") (PStr "") (PStr "") (PStr "") (PStr "")
      (PStr "") (Value PNone) (PInt 0) (PStr "") (PStr "") (PStr "") (PBool false)
      (PStr "") (PInt 0) (PInt 0) (PInt 0) (PStr "") = inr extra /\
    Py.lookup "address" extra =
    Some (PDict [("addressline1", PStr ""); ("addressline2", PStr ""); ("city", PStr "");
                 ("state", PStr "Oslo"); ("postalCode", PStr ""); ("country", PStr "")]%string).
Proof.
  eexists. split; [reflexivity|].
  apply (get_resources_data_address unit (fun _ => EmptyString) (PStr "") (PStr "")
           (PStr "") (PStr "") (PStr "") (PStr "") (PStr "") (PStr "") (PStr "Oslo")
           (PStr "") (PStr "") (PStr "") (PStr "") (PStr "") (PStr "") (PStr "")
           (PStr "") (Value PNone) (PInt 0) (PStr "") (PStr "") (PStr "") (PBool false)
           (PStr "") (PInt 0) (PInt 0) (PInt 0) (PStr "")).
  reflexivity.
Defined.

(** A start or end that is neither a [datetime] nor a [str] (a [date] is
    not) makes [create_appointment] raise [TypeError] before any request. *)
Theorem create_appointment_bad_date_time (datetime : Type)
    (datetime_isoformat : datetime -> string) service_id
    (start_date_time end_date_time : argument datetime) resource_id location_id
    customer_id service_allocation_id booked_by (st : State) :
  datetime_or_str start_date_time = false \/ datetime_or_str end_date_time = false ->
  create_appointment datetime datetime_isoformat service_id start_date_time
    end_date_time resource_id location_id customer_id service_allocation_id
    booked_by st =
  (Raise TypeError, st).
Proof.
  intros H. unfold create_appointment.
  destruct start_date_time as [[]|t1]; try reflexivity;
    (destruct H as [H|H]; [discriminate H|]);
    destruct end_date_time as [[]|t2]; try reflexivity; discriminate H.
Qed.

Lemma create_appointment_bad_date_time_witness :
  create_appointment unit (fun _ => EmptyString) (PStr "svc")
    (Value (PDate (mkDate 2024 2 29))) (DateTime tt) (PStr "r1") (PStr "") (PStr "")
    (PStr "") (PStr "") demo_state =
  (Raise TypeError, demo_state).
Proof.
  apply (create_appointment_bad_date_time unit (fun _ => EmptyString)).
  left. reflexivity.
Defined.


(** ** One page, and one token for many calls *)

Lemma set_present k v (d : dict) : Py.lookup k d = Some v -> Py.set k v d = d.
Proof.
  induction d as [|[k' v'] d IH]; cbn [Py.lookup Py.set]; [discriminate|].
  destruct (String.eqb k k') eqn:E.
  - intros [= ->]. apply String.eqb_eq in E. now subst k'.
  - intros H. now rewrite (IH H).
Qed.

(** A single page with items (a non-empty list under [data], a [total], and
    [hasMore] false or absent) comes back after exactly one GET, whatever the
    fuel, changed in one thing only: [count] is set to its [total]. *)
Theorem fetch_data_single_page fuel url st st1 r0 rest d0 x l total :
  _set_session st = (Return tt, st1) ->
  http_server (world st1) = Some r0 :: rest ->
  delivers (PDict d0) r0 ->
  Py.lookup "data" d0 = Some (PList (x :: l)) ->
  Py.lookup "total" d0 = Some total ->
  ends_fetch [] d0 = true ->
  _fetch_data fuel url st =
  (Return (PDict (Py.set "count" total d0)),
   mkState (self st1)
     (after_requests [ReqGet (bearer (self st1)) (url ++ "&limit=100&offset=0")%string]
        rest (world st1))).
Proof.
  intros H0 H Hp Hd Ht He.
  destruct (set_session_has_session st st1 H0) as [s Hs].
  rewrite <- (bearer_session _ s Hs).
  rewrite (fetch_run fuel url st st1 s [] d0 (x :: l) [r0] rest H0 Hs H);
    [ | constructor; [exact Hp | constructor] | constructor | exact Hd | exact He
      | cbn; lia ].
  unfold finish. cbn [items flat_map app Py.truthy Py.getitem]. rewrite Ht.
  unfold lift at 1, bind at 1, ret at 1. cbn [Py.setitem].
  unfold lift at 1, bind at 1, ret at 1. cbn [Py.setitem].
  unfold lift at 1, bind at 1, ret at 1.
  rewrite (set_present "data" (PList (x :: l)) (Py.set "count" total d0)).
  - reflexivity.
  - rewrite lookup_set_other by discriminate. exact Hd.
Qed.

Lemma fetch_data_single_page_witness :
  _fetch_data 0 "u?" (valid_state [Some (reply (PDict ab_page))]) =
  (Return (PDict [("hasMore", PBool false); ("data", PList [PStr "a"; PStr "b"]);
                  ("total", PInt 2); ("count", PInt 2)]%string),
   mkState valid_service
     (mkWorld 1000 [] [] [ReqGet (Some "tok"%string) "u?&limit=100&offset=0"] 1)).
Proof.
  apply (fetch_data_single_page 0 "u?" (valid_state [Some (reply (PDict ab_page))])
           (valid_state [Some (reply (PDict ab_page))]) (reply (PDict ab_page)) []
           ab_page (PStr "a") [PStr "b"] (PInt 2)); try reflexivity.
  split; reflexivity.
Defined.

(** The token one fetch leaves installed serves the next call: however the
    fetch ended after its session check returned, a session check made
    later, at any clock reading before that token's expiry, returns without
    a token request and changes nothing. *)
Theorem token_is_reused fuel url (st st1 : State) t now' :
  _set_session st = (Return tt, st1) ->
  installed (self st1) = Some t ->
  expires_at t > now' ->
  _set_session (on_world (set_now now') (snd (_fetch_data fuel url st))) =
  (Return tt, on_world (set_now now') (snd (_fetch_data fuel url st))).
Proof.
  intros H0 Hi Hlt. apply set_session_valid, installed_valid.
  exists t. split; [|exact Hlt].
  cbn [on_world self]. rewrite fetch_data_self, H0. exact Hi.
Qed.

Lemma token_is_reused_witness :
  _set_session (on_world (set_now 4000) (snd (_fetch_data 2 "u?" demo_state))) =
  (Return tt, on_world (set_now 4000) (snd (_fetch_data 2 "u?" demo_state))).
Proof.
  apply (token_is_reused 2 "u?" demo_state (snd (_set_session demo_state))
           (mkToken "tok" 4600) 4000).
  - reflexivity.
  - reflexivity.
  - cbn. lia.
Defined.
